(** * The adaptive quiz controller of [tutor_api/ml/quiz_adapter.py]

    A shallow embedding of the class [QuizAdapter] and the properties of
    its difficulty transitions, history window, scoring and analytics.

    Conventions of the embedding.
    - A Python number that takes part in the scoring arithmetic is a
      rational [Q]; an [int] used as a level, an identifier or a count is
      a [Z] (or a [nat] for [len]). The methods are given twice. First
      with exact arithmetic, for the properties that rest on the shape of
      the data and on the order of the numbers. Then, in module [B64],
      with every float operation rounded to a double, for the properties
      that rest on the value an operation returns: the score that is
      stored, the score that is shown, and the comparisons with 0.3, 0.4
      and 0.7.
    - [self] is threaded through every method by a state-and-exception
      monad [M], so that a method that does not write [self] is shown, not
      assumed, to leave it alone.
    - [self.user_performance_history] is a finite map from user ids to
      lists of scores, oldest first.
    - The scaler and the logistic-regression model are fitted by
      scikit-learn in [__init__]; what the fit produces is outside this
      repository, so the two fitted objects are fields of the adapter
      (their [transform] and their [predict(...)[0]]), and every result
      below holds for whatever they are. *)

From Stdlib Require Import ZArith QArith Qround Qminmax Qabs Lqa.
From stdpp Require Import gmap strings list pretty.

Local Open Scope Q_scope.

(** ** Python and numpy primitives used by the adapter *)

Module Py.

(** [a < b] on numbers, as a boolean. *)
Definition ltb (a b : Q) : bool := negb (Qle_bool b a).

(** The builtin [max(a, b)]: the first argument, unless the second is
    strictly larger. *)
Definition max (a b : Q) : Q := if ltb a b then b else a.

(** The builtin [min(a, b)]: the first argument, unless the second is
    strictly smaller. *)
Definition min (a b : Q) : Q := if ltb b a then b else a.

(** [int(x)]: truncation towards zero. *)
Definition int (x : Q) : Z := Z.quot (Qnum x) (QDen x).

(** [sum(l)] from the left. *)
Definition sum (l : list Q) : Q := foldl Qplus 0 l.

(** [np.mean(l)]; the adapter only calls it on non-empty lists. *)
Definition mean (l : list Q) : Q := sum l / inject_Z (Z.of_nat (length l)).

(** [l[-n:]]: the last [n] elements, or all of [l] when it is shorter. *)
Definition last_n {A} (n : nat) (l : list A) : list A :=
  drop (length l - n) l.

(** [l[:-n]]: all but the last [n] elements. *)
Definition but_last_n {A} (n : nat) (l : list A) : list A :=
  take (length l - n) l.

(** [np.rint]: the nearest integer, a tie going to the even one. *)
Definition rint (x : Q) : Z :=
  let f := Qfloor x in
  let r := x - inject_Z f in
  if ltb r (1 # 2) then f
  else if ltb (1 # 2) r then (f + 1)%Z
  else if Z.even f then f else (f + 1)%Z.

(** [round(x, 3)] on a numpy float: scale, [rint], unscale. *)
Definition round3 (x : Q) : Q := inject_Z (rint (x * 1000)) / 1000.

(** [range(n)]. *)
Definition range (n : Z) : list Z := seqZ 0 n.

End Py.

(** ** Data *)

(** The [quiz_result] dictionary. The adapter reads three keys, each with
    [.get(key, default)], so a missing key is [None]. *)
Record QuizResult := {
  is_correct : option bool;
  time_taken : option Q;
  confidence : option Q
}.

(** [d.get(key, default)]. *)
Definition dict_get {A} (field : option A) (dflt : A) : A :=
  match field with Some v => v | None => dflt end.

(** The attributes of a [QuizAdapter] instance. *)
Record QuizAdapter := {
  scaler : list Q -> list Q;
  difficulty_model : list Q -> bool;
  user_performance_history : gmap Z (list Q);
  difficulty_weights : list (string * Q)
}.

(** The one attribute that is ever reassigned after [__init__]. *)
Definition set_history (self : QuizAdapter) (h : gmap Z (list Q)) : QuizAdapter :=
  {| scaler := scaler self;
     difficulty_model := difficulty_model self;
     user_performance_history := h;
     difficulty_weights := difficulty_weights self |}.

(** A generated question (the dictionary of [_generate_sample_question]). *)
Record Question := {
  q_id : string;
  question_text : string;
  difficulty_level : Z;
  difficulty_text : string;
  topic_id : Z;
  options : list (Z * string);
  correct_option : Z;
  points : Z
}.

(** The dictionary returned by [evaluate_answer]. *)
Record Evaluation := {
  ev_is_correct : bool;
  score : Z;
  feedback : string;
  ev_time_taken : Q;
  ev_confidence : Q
}.

(** The dictionary returned by [get_performance_analytics]; the key
    [recent_performance] is absent from the empty-history answer. *)
Record Analytics := {
  total_attempts : nat;
  average_score : Q;
  improvement_trend : string;
  strengths : list string;
  weaknesses : list string;
  recent_performance : option (list Q)
}.

(** ** The monad of methods: state [self], exceptions [KeyError] and [IndexError] *)

Inductive exn :=
| KeyError (key : Z)
| IndexError.

Inductive outcome (A : Type) :=
| Ok (a : A)
| Raise (e : exn).
Arguments Ok {A} a.
Arguments Raise {A} e.

Definition M (A : Type) : Type := QuizAdapter -> outcome A * QuizAdapter.

Definition ret {A} (a : A) : M A := fun self => (Ok a, self).

Definition bind {A B} (m : M A) (k : A -> M B) : M B :=
  fun self =>
    match m self with
    | (Ok a, self') => k a self'
    | (Raise e, self') => (Raise e, self')
    end.

Definition raise {A} (e : exn) : M A := fun self => (Raise e, self).

Definition get_self : M QuizAdapter := fun self => (Ok self, self).

Definition put_self (self' : QuizAdapter) : M unit := fun _ => (Ok tt, self').

Notation "x <- m ;; k" := (bind m (fun x => k))
  (at level 100, m at next level, right associativity).
Notation "m ;;; k" := (bind m (fun _ => k))
  (at level 100, right associativity).

(** What a call returns, and the adapter it leaves behind. *)
Definition result {A} (m : M A) (self : QuizAdapter) : outcome A := fst (m self).
Definition exec {A} (m : M A) (self : QuizAdapter) : QuizAdapter := snd (m self).

(** [d[key]] on a dictionary, and [l[-1]] and [l[0]] on a list: the
    lookups that raise when the key or the position is missing. *)
Definition dict_index {V} (d : gmap Z V) (key : Z) : M V :=
  match d !! key with
  | Some v => ret v
  | None => raise (KeyError key)
  end.

Definition list_index_last {A} (l : list A) : M A :=
  match last l with
  | Some v => ret v
  | None => raise IndexError
  end.

Definition list_index_first {A} (l : list A) : M A :=
  match head l with
  | Some v => ret v
  | None => raise IndexError
  end.

(** [for i in xs: acc = body(i, acc)]. *)
Fixpoint for_each {A} (xs : list Z) (body : Z -> A -> M A) (acc : A) : M A :=
  match xs with
  | [] => ret acc
  | i :: xs' => acc' <- body i acc ;; for_each xs' body acc'
  end.

(** ** The methods of [QuizAdapter] *)

(** [__init__], given what the two scikit-learn fits produce. *)
Definition init (fitted_scaler : list Q -> list Q)
    (fitted_model : list Q -> bool) : QuizAdapter :=
  {| scaler := fitted_scaler;
     difficulty_model := fitted_model;
     user_performance_history := ∅;
     difficulty_weights :=
       [("correctness"%string, 0.4); ("time_taken"%string, 0.3);
        ("confidence"%string, 0.2); ("previous_performance"%string, 0.1)] |}.

Definition _get_previous_performance (user_id : Z) : M Q :=
  self <- get_self ;;
  match user_performance_history self !! user_id with
  | None => ret 0.5
  | Some history =>
      if (length history =? 0)%nat then ret 0.5
      else
        let recent_scores := Py.last_n 5 history in
        ret (Py.mean recent_scores)
  end.

Definition _extract_features (user_id : Z) (quiz_result : QuizResult) : M (list Q) :=
  let correctness := if dict_get (is_correct quiz_result) false then 1 else 0 in
  let max_time := 300 in
  let time_taken := dict_get (time_taken quiz_result) 0 in
  let time_score := Py.max 0 (1 - (time_taken / max_time)) in
  let confidence := dict_get (confidence quiz_result) 0.5 in
  previous_performance <- _get_previous_performance user_id ;;
  ret [correctness; time_score; confidence; previous_performance].

Definition _calculate_performance_score (quiz_result : QuizResult) : M Q :=
  let correctness := if dict_get (is_correct quiz_result) false then 1 else 0 in
  let max_time := 300 in
  let time_taken := dict_get (time_taken quiz_result) 0 in
  let time_penalty := Py.max 0 ((time_taken / max_time) * 0.3) in
  let confidence := dict_get (confidence quiz_result) 0.5 in
  let confidence_bonus := confidence * 0.2 in
  let score := correctness - time_penalty + confidence_bonus in
  ret (Py.max 0 (Py.min 1 score)).

Definition _update_user_history (user_id : Z) (quiz_result : QuizResult)
    (new_difficulty : Z) : M unit :=
  self <- get_self ;;
  (match user_performance_history self !! user_id with
   | None => put_self (set_history self (<[user_id := []]> (user_performance_history self)))
   | Some _ => ret tt
   end) ;;;
  performance_score <- _calculate_performance_score quiz_result ;;
  self <- get_self ;;
  history <- dict_index (user_performance_history self) user_id ;;
  put_self (set_history self
    (<[user_id := history ++ [performance_score]]> (user_performance_history self))) ;;;
  self <- get_self ;;
  history <- dict_index (user_performance_history self) user_id ;;
  if (20 <? length history)%nat
  then
    history <- dict_index (user_performance_history self) user_id ;;
    put_self (set_history self
      (<[user_id := Py.last_n 20 history]> (user_performance_history self)))
  else ret tt.

Definition calculate_next_difficulty (user_id : Z) (current_difficulty : Z)
    (quiz_result : QuizResult) : M Z :=
  features <- _extract_features user_id quiz_result ;;
  self <- get_self ;;
  let features_scaled := scaler self features in
  let should_increase := difficulty_model self features_scaled in
  let new_difficulty :=
    if should_increase && (current_difficulty <? 3)%Z then (current_difficulty + 1)%Z
    else if negb should_increase && (1 <? current_difficulty)%Z then (current_difficulty - 1)%Z
    else current_difficulty in
  _update_user_history user_id quiz_result new_difficulty ;;;
  ret new_difficulty.

Definition _adjust_question_difficulty (base_difficulty : Z) (user_id : Z)
    (question_index : Z) : M Z :=
  self <- get_self ;;
  match user_performance_history self !! user_id with
  | None => ret base_difficulty
  | Some history =>
      if (length history =? 0)%nat then ret base_difficulty
      else
        recent_performance <-
          (if (3 <=? length history)%nat then ret (Py.mean (Py.last_n 3 history))
           else list_index_last history) ;;
        let adjusted :=
          if Py.ltb 0.7 recent_performance then Z.min 3 (base_difficulty + 1)
          else if Py.ltb recent_performance 0.3 then Z.max 1 (base_difficulty - 1)
          else base_difficulty in
        ret (Z.max 1 (Z.min 3 adjusted))
  end.

Definition _generate_sample_question (topic : Z) (difficulty : Z)
    (question_num : Z) : M Question :=
  let difficulty_texts : gmap Z string :=
    {[ 1%Z := "Beginner"; 2%Z := "Intermediate"; 3%Z := "Advanced" ]}%string in
  let question_templates : gmap Z string :=
    {[ 1%Z := "What is the basic concept of topic " +:+ pretty topic +:+ "?";
       2%Z := "How does topic " +:+ pretty topic +:+ " relate to other concepts?";
       3%Z := "Explain the advanced applications of topic " +:+ pretty topic +:+ "." ]}%string in
  fallback <- dict_index question_templates 1%Z ;;
  text <- dict_index difficulty_texts difficulty ;;
  ret {| q_id := "q_" +:+ pretty topic +:+ "_" +:+ pretty question_num;
         question_text := dict_get (question_templates !! difficulty) fallback;
         difficulty_level := difficulty;
         difficulty_text := text;
         topic_id := topic;
         options :=
           [(1%Z, "Option A for question " +:+ pretty question_num);
            (2%Z, "Option B for question " +:+ pretty question_num);
            (3%Z, "Option C for question " +:+ pretty question_num);
            (4%Z, "Option D for question " +:+ pretty question_num)];
         correct_option := 1%Z;
         points := difficulty |}%string.

Definition get_adaptive_questions (topic : Z) (user_id : Z)
    (current_difficulty : Z) (num_questions : Z) : M (list Question) :=
  for_each (Py.range num_questions)
    (fun i questions =>
       question_difficulty <- _adjust_question_difficulty current_difficulty user_id i ;;
       question <- _generate_sample_question topic question_difficulty (i + 1)%Z ;;
       ret (questions ++ [question]))
    [].

Definition _generate_feedback (correct : bool) (time : Q) (conf : Q) : M string :=
  ret (if correct then
         if Py.ltb time 60 then "Excellent! You answered quickly and correctly."
         else if Py.ltb time 180 then "Great job! You got the right answer."
         else "Correct answer, but try to be a bit faster next time."
       else
         if Py.ltb 0.7 conf then "You were confident but incorrect. Review the concept carefully."
         else "Don't worry! This is a learning opportunity. Review the material and try again.")%string.

Definition evaluate_answer `{EqDecision A} (user_answer correct_answer : A)
    (time : Q) (conf : Q) : M Evaluation :=
  let correct := bool_decide (user_answer = correct_answer) in
  let base_score := if correct then 10 else 0 in
  let time_bonus := Py.max 0 ((300 - time) / 300 * 5) in
  let confidence_bonus := if correct then conf * 2 else 0 in
  let total_score := base_score + time_bonus + confidence_bonus in
  text <- _generate_feedback correct time conf ;;
  ret {| ev_is_correct := correct;
         score := Py.int total_score;
         feedback := text;
         ev_time_taken := time;
         ev_confidence := conf |}.

Definition get_performance_analytics (user_id : Z) : M Analytics :=
  self <- get_self ;;
  match user_performance_history self !! user_id with
  | None =>
      ret {| total_attempts := 0; average_score := 0;
             improvement_trend := "stable"; strengths := []; weaknesses := [];
             recent_performance := None |}
  | Some history =>
      if (length history =? 0)%nat then
        ret {| total_attempts := 0; average_score := 0;
               improvement_trend := "stable"; strengths := []; weaknesses := [];
               recent_performance := None |}
      else
        let attempts := length history in
        let average := Py.mean history in
        trend <-
          (if (3 <=? length history)%nat then
             let recent_avg := Py.mean (Py.last_n 3 history) in
             earlier_avg <-
               (if (3 <? length history)%nat then ret (Py.mean (Py.but_last_n 3 history))
                else list_index_first history) ;;
             ret (if Py.ltb (earlier_avg + 0.1) recent_avg then "improving"
                  else if Py.ltb recent_avg (earlier_avg - 0.1) then "declining"
                  else "stable")%string
           else ret "stable"%string) ;;
        let strong : list string := [] in
        let weak : list string := [] in
        let strong :=
          if Py.ltb 0.7 average then strong ++ ["Consistent high performance"%string]
          else strong in
        let weak :=
          if Py.ltb average 0.4 then weak ++ ["Need for fundamental review"%string]
          else weak in
        ret {| total_attempts := attempts;
               average_score := Py.round3 average;
               improvement_trend := trend;
               strengths := strong;
               weaknesses := weak;
               recent_performance :=
                 Some (if (5 <=? length history)%nat then Py.last_n 5 history
                       else history) |}
  end.

(** ** The caller: [AdaptiveQuizView] of [views.py]

    The two handlers build a new [QuizAdapter()] for every request and
    make one call on it. What they read from the request and from the
    database is a parameter here: the user id, the stored
    [preferred_difficulty] of the user's profile ([None] when
    [UserProfile.DoesNotExist]), and the integers already parsed from the
    query or validated by the serializer. *)

(** What [get] answers: status 200 with the questions and the level they
    were asked at, or status 500 from the handler's [except Exception]. *)
Inductive QuizResponse :=
| Http200 (questions : list Question) (current_difficulty : Z)
| Http500 (e : exn).

Definition AdaptiveQuizView_get (fitted_scaler : list Q -> list Q)
    (fitted_model : list Q -> bool) (user_id : Z) (profile : option Z)
    (topic num_questions : Z) : QuizResponse :=
  let current_difficulty :=
    match profile with
    | Some preferred_difficulty => preferred_difficulty
    | None => 1%Z
    end in
  let quiz_adapter := init fitted_scaler fitted_model in
  match result (get_adaptive_questions topic user_id current_difficulty num_questions)
               quiz_adapter with
  | Ok questions => Http200 questions current_difficulty
  | Raise e => Http500 e
  end.

(** The part of [post] that updates the difficulty: the [new_difficulty]
    of the response ([None] without a profile) and the
    [preferred_difficulty] the profile holds afterwards. *)
Definition AdaptiveQuizView_post_difficulty (fitted_scaler : list Q -> list Q)
    (fitted_model : list Q -> bool) (user_id : Z) (profile : option Z)
    (correct : bool) (time : Z) : outcome (option Z * option Z) :=
  let quiz_adapter := init fitted_scaler fitted_model in
  let quiz_result :=
    {| is_correct := Some correct;
       time_taken := Some (inject_Z time);
       confidence := Some 0.5 |} in
  let new_difficulty : option Z := None in
  match profile with
  | Some preferred_difficulty =>
      match result (calculate_next_difficulty user_id preferred_difficulty quiz_result)
                   quiz_adapter with
      | Ok new_difficulty => Ok (Some new_difficulty, Some new_difficulty)
      | Raise e => Raise e
      end
  | None => Ok (new_difficulty, profile)
  end.

(** ** Vocabulary of the statements

    Nothing here is code of the adapter: these definitions name what a
    call returned, what the adapter holds, and the client runs the
    statements quantify over. *)

(** The closed interval from 0 to 1. *)
Definition unit_interval (x : Q) : Prop := 0 <= x <= 1.


(** The value of a call, for the calls shown below never to raise. *)
Definition returned {A} (dflt : A) (m : M A) (self : QuizAdapter) : A :=
  match result m self with
  | Ok a => a
  | Raise _ => dflt
  end.

(** The stored history of a user; a user never seen has none. *)
Definition history_of (self : QuizAdapter) (user_id : Z) : list Q :=
  dict_get (user_performance_history self !! user_id) [].

(** The score [_calculate_performance_score] gives a quiz result; the
    method reads nothing of [self], so any adapter serves to run it. *)
Definition performance_score_of (quiz_result : QuizResult) : Q :=
  returned 0 (_calculate_performance_score quiz_result) (init id (fun _ => true)).

(** The feature vector and the classifier's verdict for a quiz result. *)
Definition features_of (self : QuizAdapter) (user_id : Z) (quiz_result : QuizResult) : list Q :=
  returned [] (_extract_features user_id quiz_result) self.

Definition prediction (self : QuizAdapter) (user_id : Z) (quiz_result : QuizResult) : bool :=
  difficulty_model self (scaler self (features_of self user_id quiz_result)).

(** The adapter after one more score of a user has been logged. *)
Definition logged (self : QuizAdapter) (user_id : Z) (x : Q) : QuizAdapter :=
  set_history self
    (<[user_id := Py.last_n 20 (history_of self user_id ++ [x])]>
       (user_performance_history self)).

(** A client that submits quiz results one after the other; an element
    holds the arguments of one call of [calculate_next_difficulty]. *)
Fixpoint submit_all (calls : list (Z * Z * QuizResult)) : M unit :=
  match calls with
  | [] => ret tt
  | (user_id, current_difficulty, quiz_result) :: rest =>
      calculate_next_difficulty user_id current_difficulty quiz_result ;;;
      submit_all rest
  end.

(** The scores such a run appends for one user, in the order of the calls. *)
Definition appended_scores (user_id : Z) (calls : list (Z * Z * QuizResult)) : list Q :=
  omap (fun call : Z * Z * QuizResult =>
          let '(u, _, quiz_result) := call in
          if decide (u = user_id) then Some (performance_score_of quiz_result) else None)
       calls.

(** A call that leaves the adapter as it found it, whatever it returns. *)
Definition read_only {A} (m : M A) : Prop :=
  forall self : QuizAdapter, exec m self = self.

(** The adapters a process can hold: a fresh one, and what a public
    method leaves behind. *)
Inductive reachable : QuizAdapter -> Prop :=
| reach_init (fitted_scaler : list Q -> list Q) (fitted_model : list Q -> bool) :
    reachable (init fitted_scaler fitted_model)
| reach_calculate (self : QuizAdapter) (user_id current_difficulty : Z)
    (quiz_result : QuizResult) :
    reachable self ->
    reachable (exec (calculate_next_difficulty user_id current_difficulty quiz_result) self)
| reach_questions (self : QuizAdapter) (topic user_id current_difficulty num_questions : Z) :
    reachable self ->
    reachable (exec (get_adaptive_questions topic user_id current_difficulty num_questions) self)
| reach_evaluate (self : QuizAdapter) (user_answer correct_answer : string) (time conf : Q) :
    reachable self ->
    reachable (exec (evaluate_answer user_answer correct_answer time conf) self)
| reach_analytics (self : QuizAdapter) (user_id : Z) :
    reachable self ->
    reachable (exec (get_performance_analytics user_id) self).

(** The three inputs of the scoring arithmetic, with the defaults of
    [.get]. *)
Definition correctness_of (quiz_result : QuizResult) : Q :=
  if dict_get (is_correct quiz_result) false then 1 else 0.

Definition time_of (quiz_result : QuizResult) : Q :=
  dict_get (time_taken quiz_result) 0.

Definition confidence_of (quiz_result : QuizResult) : Q :=
  dict_get (confidence quiz_result) 0.5.

(** [clamp01] of the specification. *)
Definition clamp01 (x : Q) : Q := Qmax 0 (Qmin 1 x).


(** The recent trend as [_adjust_question_difficulty] computes it: the
    mean of the last three entries, or the last entry alone when there
    are fewer than three. *)
Definition recent_trend (history : list Q) : Q :=
  if (3 <=? length history)%nat then Py.mean (Py.last_n 3 history)
  else default 0 (last history).

(** The secondary adjustment in the specification's words: the trend is
    the mean of the last three entries, or of all of them when there are
    fewer than three. *)
Definition spec_adjust_question_difficulty (base_difficulty : Z) (history : list Q) : Z :=
  match history with
  | [] => base_difficulty
  | _ :: _ =>
      let trend := Py.mean (Py.last_n 3 history) in
      if Py.ltb 0.7 trend then Z.min 3 (base_difficulty + 1)
      else if Py.ltb trend 0.3 then Z.max 1 (base_difficulty - 1)
      else base_difficulty
  end.

(** The question [_generate_sample_question] builds for a level it has a
    text for; as the method reads nothing of [self], any adapter serves
    to run it. *)
Definition blank_question : Question :=
  {| q_id := ""; question_text := ""; difficulty_level := 0; difficulty_text := "";
     topic_id := 0; options := []; correct_option := 0; points := 0 |}.

Definition sample_question (topic difficulty question_num : Z) : Question :=
  returned blank_question (_generate_sample_question topic difficulty question_num)
    (init id (fun _ => true)).

(** The level [_adjust_question_difficulty] proposes from a base level;
    the run is made at question index 0, and the index is shown below not
    to matter. *)
Definition adjusted_level (self : QuizAdapter) (base_difficulty user_id : Z) : Z :=
  returned base_difficulty (_adjust_question_difficulty base_difficulty user_id 0) self.

(** ** The same methods in binary64

    The methods above compute with exact rationals, which is enough for
    what depends on the order of the numbers or on the shape of the data.
    What depends on the value a float operation returns is stated on the
    methods below, where every operation Python performs on floats is
    followed by the rounding of its exact result to a double, every
    decimal literal is the double nearest to it, and [np.mean] and the
    [round] of a numpy float are numpy's own. A number is still written
    as a rational: it stands for a finite double, or for an [int] that a
    double holds exactly.

    The rounding and the two numpy functions are an interface, with the
    laws of round-to-nearest that the proofs use: rounding is monotone,
    it leaves integers up to 2^53 alone, it moves a number of magnitude
    up to 1024 by less than 2^-40; and the mean numpy computes of at most
    20 numbers of the unit interval is within 2^-40 of their exact mean.
    The methods that do no float arithmetic ([_generate_sample_question]
    and the lookups) are shared with the exact ones, and so are the
    adapter and the monad. *)

Class Binary64 := {
  rnd : Q -> Q;
  np_mean : list Q -> Q;
  np_round3 : Q -> Q;
  rnd_monotone : forall x y : Q, x <= y -> rnd x <= rnd y;
  rnd_integer :
    forall n : Z, (Z.abs n <= 9007199254740992)%Z -> rnd (inject_Z n) == inject_Z n;
  rnd_near :
    forall x : Q, - (1024) <= x <= 1024 ->
      - (1 # 1099511627776) <= rnd x - x <= 1 # 1099511627776;
  np_mean_near :
    forall l : list Q, l <> [] -> (length l <= 20)%nat -> Forall unit_interval l ->
      - (1 # 1099511627776) <= np_mean l - Py.mean l <= 1 # 1099511627776
}.

(** Arithmetic without rounding error is one implementation of the
    interface; it is the one the examples are run with. *)
#[export] Instance exact_arithmetic : Binary64.
Proof.
  refine {| rnd := fun x => x; np_mean := Py.mean; np_round3 := Py.round3 |}.
  - intros x y H. exact H.
  - intros n _. reflexivity.
  - intros x _. lra.
  - intros l _ _ _. lra.
Defined.

Module B64.
Section Methods.

Context {arithmetic : Binary64}.

Definition _get_previous_performance (user_id : Z) : M Q :=
  self <- get_self ;;
  match user_performance_history self !! user_id with
  | None => ret 0.5
  | Some history =>
      if (length history =? 0)%nat then ret 0.5
      else
        let recent_scores := Py.last_n 5 history in
        ret (np_mean recent_scores)
  end.

Definition _extract_features (user_id : Z) (quiz_result : QuizResult) : M (list Q) :=
  let correctness := if dict_get (is_correct quiz_result) false then 1 else 0 in
  let max_time := 300 in
  let time_taken := dict_get (time_taken quiz_result) 0 in
  let time_score := Py.max 0 (rnd (1 - rnd (time_taken / max_time))) in
  let confidence := dict_get (confidence quiz_result) 0.5 in
  previous_performance <- _get_previous_performance user_id ;;
  ret [correctness; time_score; confidence; previous_performance].

Definition _calculate_performance_score (quiz_result : QuizResult) : M Q :=
  let correctness := if dict_get (is_correct quiz_result) false then 1 else 0 in
  let max_time := 300 in
  let time_taken := dict_get (time_taken quiz_result) 0 in
  let time_penalty := Py.max 0 (rnd (rnd (time_taken / max_time) * rnd 0.3)) in
  let confidence := dict_get (confidence quiz_result) 0.5 in
  let confidence_bonus := rnd (confidence * rnd 0.2) in
  let score := rnd (rnd (correctness - time_penalty) + confidence_bonus) in
  ret (Py.max 0 (Py.min 1 score)).

Definition _update_user_history (user_id : Z) (quiz_result : QuizResult)
    (new_difficulty : Z) : M unit :=
  self <- get_self ;;
  (match user_performance_history self !! user_id with
   | None => put_self (set_history self (<[user_id := []]> (user_performance_history self)))
   | Some _ => ret tt
   end) ;;;
  performance_score <- _calculate_performance_score quiz_result ;;
  self <- get_self ;;
  history <- dict_index (user_performance_history self) user_id ;;
  put_self (set_history self
    (<[user_id := history ++ [performance_score]]> (user_performance_history self))) ;;;
  self <- get_self ;;
  history <- dict_index (user_performance_history self) user_id ;;
  if (20 <? length history)%nat
  then
    history <- dict_index (user_performance_history self) user_id ;;
    put_self (set_history self
      (<[user_id := Py.last_n 20 history]> (user_performance_history self)))
  else ret tt.

Definition calculate_next_difficulty (user_id : Z) (current_difficulty : Z)
    (quiz_result : QuizResult) : M Z :=
  features <- _extract_features user_id quiz_result ;;
  self <- get_self ;;
  let features_scaled := scaler self features in
  let should_increase := difficulty_model self features_scaled in
  let new_difficulty :=
    if should_increase && (current_difficulty <? 3)%Z then (current_difficulty + 1)%Z
    else if negb should_increase && (1 <? current_difficulty)%Z then (current_difficulty - 1)%Z
    else current_difficulty in
  _update_user_history user_id quiz_result new_difficulty ;;;
  ret new_difficulty.

Definition _adjust_question_difficulty (base_difficulty : Z) (user_id : Z)
    (question_index : Z) : M Z :=
  self <- get_self ;;
  match user_performance_history self !! user_id with
  | None => ret base_difficulty
  | Some history =>
      if (length history =? 0)%nat then ret base_difficulty
      else
        recent_performance <-
          (if (3 <=? length history)%nat then ret (np_mean (Py.last_n 3 history))
           else list_index_last history) ;;
        let adjusted :=
          if Py.ltb (rnd 0.7) recent_performance then Z.min 3 (base_difficulty + 1)
          else if Py.ltb recent_performance (rnd 0.3) then Z.max 1 (base_difficulty - 1)
          else base_difficulty in
        ret (Z.max 1 (Z.min 3 adjusted))
  end.

Definition get_adaptive_questions (topic : Z) (user_id : Z)
    (current_difficulty : Z) (num_questions : Z) : M (list Question) :=
  for_each (Py.range num_questions)
    (fun i questions =>
       question_difficulty <- _adjust_question_difficulty current_difficulty user_id i ;;
       question <- _generate_sample_question topic question_difficulty (i + 1)%Z ;;
       ret (questions ++ [question]))
    [].

Definition _generate_feedback (correct : bool) (time : Q) (conf : Q) : M string :=
  ret (if correct then
         if Py.ltb time 60 then "Excellent! You answered quickly and correctly."
         else if Py.ltb time 180 then "Great job! You got the right answer."
         else "Correct answer, but try to be a bit faster next time."
       else
         if Py.ltb (rnd 0.7) conf
         then "You were confident but incorrect. Review the concept carefully."
         else "Don't worry! This is a learning opportunity. Review the material and try again.")%string.

Definition evaluate_answer `{EqDecision A} (user_answer correct_answer : A)
    (time : Q) (conf : Q) : M Evaluation :=
  let correct := bool_decide (user_answer = correct_answer) in
  let base_score := if correct then 10 else 0 in
  let time_bonus := Py.max 0 (rnd (rnd (rnd (300 - time) / 300) * 5)) in
  let confidence_bonus := if correct then rnd (conf * 2) else 0 in
  let total_score := rnd (rnd (base_score + time_bonus) + confidence_bonus) in
  text <- _generate_feedback correct time conf ;;
  ret {| ev_is_correct := correct;
         score := Py.int total_score;
         feedback := text;
         ev_time_taken := time;
         ev_confidence := conf |}.

Definition get_performance_analytics (user_id : Z) : M Analytics :=
  self <- get_self ;;
  match user_performance_history self !! user_id with
  | None =>
      ret {| total_attempts := 0; average_score := 0;
             improvement_trend := "stable"; strengths := []; weaknesses := [];
             recent_performance := None |}
  | Some history =>
      if (length history =? 0)%nat then
        ret {| total_attempts := 0; average_score := 0;
               improvement_trend := "stable"; strengths := []; weaknesses := [];
               recent_performance := None |}
      else
        let attempts := length history in
        let average := np_mean history in
        trend <-
          (if (3 <=? length history)%nat then
             let recent_avg := np_mean (Py.last_n 3 history) in
             earlier_avg <-
               (if (3 <? length history)%nat then ret (np_mean (Py.but_last_n 3 history))
                else list_index_first history) ;;
             ret (if Py.ltb (rnd (earlier_avg + rnd 0.1)) recent_avg then "improving"
                  else if Py.ltb recent_avg (rnd (earlier_avg - rnd 0.1)) then "declining"
                  else "stable")%string
           else ret "stable"%string) ;;
        let strong : list string := [] in
        let weak : list string := [] in
        let strong :=
          if Py.ltb (rnd 0.7) average then strong ++ ["Consistent high performance"%string]
          else strong in
        let weak :=
          if Py.ltb average (rnd 0.4) then weak ++ ["Need for fundamental review"%string]
          else weak in
        ret {| total_attempts := attempts;
               average_score := np_round3 average;
               improvement_trend := trend;
               strengths := strong;
               weaknesses := weak;
               recent_performance :=
                 Some (if (5 <=? length history)%nat then Py.last_n 5 history
                       else history) |}
  end.

(** The vocabulary of the statements, for these methods. *)

Definition performance_score_of (quiz_result : QuizResult) : Q :=
  returned 0 (_calculate_performance_score quiz_result) (init id (fun _ => true)).

Definition features_of (self : QuizAdapter) (user_id : Z) (quiz_result : QuizResult) : list Q :=
  returned [] (_extract_features user_id quiz_result) self.

Definition prediction (self : QuizAdapter) (user_id : Z) (quiz_result : QuizResult) : bool :=
  difficulty_model self (scaler self (features_of self user_id quiz_result)).

Definition adjusted_level (self : QuizAdapter) (base_difficulty user_id : Z) : Z :=
  returned base_difficulty (_adjust_question_difficulty base_difficulty user_id 0) self.

(** The trend [_adjust_question_difficulty] computes: numpy's mean of the
    last three entries, or the last entry alone when there are fewer. *)
Definition recent_trend (history : list Q) : Q :=
  if (3 <=? length history)%nat then np_mean (Py.last_n 3 history)
  else default 0 (last history).

Inductive reachable : QuizAdapter -> Prop :=
| reach_init (fitted_scaler : list Q -> list Q) (fitted_model : list Q -> bool) :
    reachable (init fitted_scaler fitted_model)
| reach_calculate (self : QuizAdapter) (user_id current_difficulty : Z)
    (quiz_result : QuizResult) :
    reachable self ->
    reachable (exec (calculate_next_difficulty user_id current_difficulty quiz_result) self)
| reach_questions (self : QuizAdapter) (topic user_id current_difficulty num_questions : Z) :
    reachable self ->
    reachable (exec (get_adaptive_questions topic user_id current_difficulty num_questions) self)
| reach_evaluate (self : QuizAdapter) (user_answer correct_answer : string) (time conf : Q) :
    reachable self ->
    reachable (exec (evaluate_answer user_answer correct_answer time conf) self)
| reach_analytics (self : QuizAdapter) (user_id : Z) :
    reachable self ->
    reachable (exec (get_performance_analytics user_id) self).

End Methods.
End B64.



(** ** Facts about the primitives *)

Module PyFacts.

Lemma ltb_lt a b : Py.ltb a b = true <-> a < b.
Proof.
  unfold Py.ltb. rewrite negb_true_iff.
  split; intros H.
  - apply Qnot_le_lt. intros Hle. apply Qle_bool_iff in Hle. congruence.
  - destruct (Qle_bool b a) eqn:E; [|reflexivity].
    apply Qle_bool_iff in E. exfalso. apply (Qlt_not_le _ _ H E).
Qed.

Lemma ltb_ge a b : Py.ltb a b = false <-> b <= a.
Proof.
  unfold Py.ltb. rewrite negb_false_iff. apply Qle_bool_iff.
Qed.

(** The case analysis every proof about a comparison starts with. *)
Lemma ltb_cases a b :
  (Py.ltb a b = true /\ a < b) \/ (Py.ltb a b = false /\ b <= a).
Proof.
  destruct (Py.ltb a b) eqn:E; [left | right]; split; try reflexivity.
  - by apply ltb_lt.
  - by apply ltb_ge.
Qed.

(** The builtins agree with the library's [Qmax] and [Qmin], value for
    value and not only up to [==]. *)
Lemma max_Qmax a b : Py.max a b = Qmax a b.
Proof.
  unfold Py.max, Qmax, GenericMinMax.gmax.
  destruct (ltb_cases a b) as [[-> H] | [-> H]].
  - by rewrite (proj1 (Qlt_alt a b) H).
  - destruct (a ?= b) eqn:E; try reflexivity.
    exfalso. apply (Qlt_not_le _ _ (proj2 (Qlt_alt a b) E) H).
Qed.

Lemma min_Qmin a b : Py.min a b = Qmin a b.
Proof.
  unfold Py.min, Qmin, GenericMinMax.gmin.
  destruct (ltb_cases b a) as [[-> H] | [-> H]].
  - by rewrite (proj1 (Qgt_alt a b) H).
  - destruct (a ?= b) eqn:E; try reflexivity.
    exfalso. apply (Qlt_not_le _ _ (proj2 (Qgt_alt a b) E) H).
Qed.

Lemma max_lower a b : a <= Py.max a b.
Proof.
  unfold Py.max. destruct (ltb_cases a b) as [[-> H] | [-> H]]; lra.
Qed.

Lemma max_upper a b c : a <= c -> b <= c -> Py.max a b <= c.
Proof.
  unfold Py.max. by destruct (Py.ltb a b).
Qed.

Lemma min_upper a b : Py.min a b <= a.
Proof.
  unfold Py.min. destruct (ltb_cases b a) as [[-> H] | [-> H]]; lra.
Qed.

Lemma clamp_unit x : 0 <= Py.max 0 (Py.min 1 x) <= 1.
Proof.
  split; [apply max_lower|].
  apply max_upper; [lra | apply min_upper].
Qed.

(** On a non-negative number [int] is the floor. *)
Lemma int_floor x : 0 <= x -> Py.int x = Qfloor x.
Proof.
  destruct x as [n d]. unfold Py.int, Qfloor, Qle. simpl. intros H.
  apply Z.quot_div_nonneg; lia.
Qed.

Lemma int_bounds x (lo hi : Z) :
  (0 <= lo)%Z -> inject_Z lo <= x -> x <= inject_Z hi ->
  (lo <= Py.int x <= hi)%Z.
Proof.
  intros Hlo H1 H2.
  assert (0 <= x) as Hx.
  { apply Qle_trans with (inject_Z lo); [|done].
    change 0 with (inject_Z 0). by rewrite <- Zle_Qle. }
  rewrite (int_floor x Hx). split.
  - rewrite <- (Qfloor_Z lo). by apply Qfloor_resp_le.
  - rewrite <- (Qfloor_Z hi). by apply Qfloor_resp_le.
Qed.

(** The slices. *)
Lemma last_n_short {A} n (l : list A) : (length l <= n)%nat -> Py.last_n n l = l.
Proof.
  intros H. unfold Py.last_n. by replace (length l - n)%nat with 0%nat by lia.
Qed.

Lemma last_n_length {A} n (l : list A) :
  length (Py.last_n n l) = Nat.min n (length l).
Proof.
  unfold Py.last_n. rewrite length_drop. lia.
Qed.

Lemma last_n_app {A} n (l k : list A) :
  (n <= length k)%nat -> Py.last_n n (l ++ k) = Py.last_n n k.
Proof.
  intros H. unfold Py.last_n. rewrite length_app.
  replace (length l + length k - n)%nat with (length l + (length k - n))%nat by lia.
  by rewrite drop_app_add.
Qed.

(** Appending to a window and cutting again is cutting the whole log. *)
Lemma last_n_window {A} n (l k : list A) :
  Py.last_n n (Py.last_n n l ++ k) = Py.last_n n (l ++ k).
Proof.
  destruct (decide (length l <= n)%nat) as [H|H].
  - by rewrite (last_n_short n l H).
  - unfold Py.last_n at 1 3. rewrite !length_app, last_n_length.
    replace (Nat.min n (length l) + length k - n)%nat with (length k) by lia.
    unfold Py.last_n.
    replace (length l + length k - n)%nat with ((length l - n) + length k)%nat by lia.
    rewrite <- drop_drop.
    rewrite (drop_app_le l k) by lia. reflexivity.
Qed.

Lemma last_n_Forall {A} (P : A -> Prop) n (l : list A) :
  Forall P l -> Forall P (Py.last_n n l).
Proof. apply Forall_drop. Qed.

(** The mean of numbers of the unit interval is in the unit interval. *)

Lemma foldl_bounds (l : list Q) :
  Forall unit_interval l ->
  forall a, a <= foldl Qplus a l <= a + inject_Z (Z.of_nat (length l)).
Proof.
  induction 1 as [|x l [Hx0 Hx1] _ IH]; intros a; simpl.
  - change (inject_Z (Z.of_nat 0)) with 0. lra.
  - specialize (IH (a + x)).
    rewrite Nat2Z.inj_succ, <- Z.add_1_r, inject_Z_plus.
    change (inject_Z 1) with 1. lra.
Qed.

Lemma mean_unit (l : list Q) :
  l <> [] -> Forall unit_interval l -> unit_interval (Py.mean l).
Proof.
  intros Hne Hl. unfold Py.mean, Py.sum.
  destruct (foldl_bounds l Hl 0) as [H0 H1].
  assert (0 < inject_Z (Z.of_nat (length l))) as Hpos.
  { change 0 with (inject_Z 0). rewrite <- Zlt_Qlt.
    destruct l; [done | simpl; lia]. }
  split.
  - apply Qle_shift_div_l; [done | lra].
  - apply Qle_shift_div_r; [done | lra].
Qed.

End PyFacts.

(** ** The methods, run *)

Section Runs.

Variable self : QuizAdapter.

Lemma set_history_same : set_history self (user_performance_history self) = self.
Proof. by destruct self. Qed.

Lemma _get_previous_performance_run user_id :
  exists v, _get_previous_performance user_id self = (Ok v, self).
Proof.
  unfold _get_previous_performance, bind, get_self.
  destruct (user_performance_history self !! user_id) as [h|]; [|by eexists].
  destruct (length h =? 0)%nat; by eexists.
Qed.

Lemma _extract_features_run user_id quiz_result :
  _extract_features user_id quiz_result self
  = (Ok (features_of self user_id quiz_result), self).
Proof.
  unfold features_of, returned, result, _extract_features, bind.
  destruct (_get_previous_performance_run user_id) as [v ->]. reflexivity.
Qed.

Lemma _calculate_performance_score_run quiz_result (s : QuizAdapter) :
  _calculate_performance_score quiz_result s
  = (Ok (performance_score_of quiz_result), s).
Proof. reflexivity. Qed.

Lemma _update_user_history_run user_id quiz_result new_difficulty :
  _update_user_history user_id quiz_result new_difficulty self
  = (Ok tt, logged self user_id (performance_score_of quiz_result)).
Proof.
  unfold _update_user_history, logged, history_of, bind, get_self, put_self, ret, dict_index.
  set (x := performance_score_of quiz_result).
  destruct (user_performance_history self !! user_id) as [h|] eqn:Hh;
    rewrite _calculate_performance_score_run; fold x; cbn [set_history
      user_performance_history scaler difficulty_model difficulty_weights dict_get].
  - rewrite Hh. unfold ret. cbn [set_history user_performance_history].
    rewrite !lookup_insert_eq.
    destruct (20 <? length (h ++ [x]))%nat eqn:E; cbn.
    + by rewrite insert_insert_eq.
    + apply Nat.ltb_ge in E. by rewrite PyFacts.last_n_short.
  - rewrite !lookup_insert_eq. unfold ret. cbn [set_history user_performance_history].
    rewrite !lookup_insert_eq. cbn.
    by rewrite insert_insert_eq.
Qed.

Lemma calculate_next_difficulty_run user_id current_difficulty quiz_result :
  calculate_next_difficulty user_id current_difficulty quiz_result self
  = (Ok (if prediction self user_id quiz_result && (current_difficulty <? 3)%Z
         then (current_difficulty + 1)%Z
         else if negb (prediction self user_id quiz_result) && (1 <? current_difficulty)%Z
         then (current_difficulty - 1)%Z
         else current_difficulty),
     logged self user_id (performance_score_of quiz_result)).
Proof.
  unfold calculate_next_difficulty, bind at 1.
  rewrite _extract_features_run. unfold bind, get_self.
  by rewrite _update_user_history_run.
Qed.

End Runs.

Lemma history_of_logged self user_id x other :
  history_of (logged self user_id x) other
  = if decide (user_id = other)
    then Py.last_n 20 (history_of self user_id ++ [x])
    else history_of self other.
Proof.
  unfold history_of, logged. cbn. rewrite lookup_insert.
  by destruct (decide (user_id = other)).
Qed.


(** ** Difficulty transitions *)

(** C1. From a level in {1,2,3} [calculate_next_difficulty] returns a
    level in {1,2,3} at most one step away, whatever the quiz result and
    whatever the classifier answers: one step up when it predicts an
    increase below level 3, one step down when it predicts a decrease
    above level 1, and the same level otherwise. *)
Theorem calculate_next_difficulty_one_step
    (self : QuizAdapter) (user_id current_difficulty : Z) (quiz_result : QuizResult) :
  (1 <= current_difficulty <= 3)%Z ->
  exists next : Z,
    result (calculate_next_difficulty user_id current_difficulty quiz_result) self = Ok next /\
    (1 <= next <= 3)%Z /\
    (Z.abs (next - current_difficulty) <= 1)%Z /\
    (prediction self user_id quiz_result = true -> (current_difficulty < 3)%Z ->
     next = (current_difficulty + 1)%Z) /\
    (prediction self user_id quiz_result = false -> (1 < current_difficulty)%Z ->
     next = (current_difficulty - 1)%Z) /\
    (prediction self user_id quiz_result = true -> current_difficulty = 3%Z ->
     next = current_difficulty) /\
    (prediction self user_id quiz_result = false -> current_difficulty = 1%Z ->
     next = current_difficulty).
Proof.
  intros Hd. unfold result. rewrite calculate_next_difficulty_run. cbn [fst].
  eexists. split; [reflexivity|].
  destruct (prediction self user_id quiz_result); cbn [andb negb];
    destruct (Z.ltb_spec current_difficulty 3);
    destruct (Z.ltb_spec 1 current_difficulty);
    repeat split; intros; try discriminate; lia.
Qed.

Lemma calculate_next_difficulty_one_step_witness :
  exists next : Z,
    result (calculate_next_difficulty 7 2
              {| is_correct := Some true; time_taken := Some 30; confidence := Some 0.9 |})
           (init id (fun _ => true)) = Ok next /\
    (1 <= next <= 3)%Z.
Proof.
  destruct (calculate_next_difficulty_one_step (init id (fun _ => true)) 7 2
              {| is_correct := Some true; time_taken := Some 30; confidence := Some 0.9 |})
    as (next & Hrun & Hrange & _); [lia|].
  exists next. split; [exact Hrun | exact Hrange].
Defined.

(** ** The history window *)

Lemma submit_all_cons u d qr rest self :
  submit_all ((u, d, qr) :: rest) self
  = submit_all rest (logged self u (performance_score_of qr)).
Proof.
  cbn [submit_all]. unfold bind. by rewrite calculate_next_difficulty_run.
Qed.

Lemma appended_scores_cons user_id u d qr rest :
  appended_scores user_id ((u, d, qr) :: rest)
  = if decide (u = user_id)
    then performance_score_of qr :: appended_scores user_id rest
    else appended_scores user_id rest.
Proof.
  unfold appended_scores. simpl. by destruct (decide (u = user_id)).
Qed.

Lemma submit_all_history (user_id : Z) (calls : list (Z * Z * QuizResult)) :
  forall self : QuizAdapter,
    result (submit_all calls) self = Ok tt /\
    (appended_scores user_id calls = [] ->
     user_performance_history (exec (submit_all calls) self) !! user_id
     = user_performance_history self !! user_id) /\
    (appended_scores user_id calls <> [] ->
     user_performance_history (exec (submit_all calls) self) !! user_id
     = Some (Py.last_n 20 (history_of self user_id ++ appended_scores user_id calls))).
Proof.
  induction calls as [|[[u d] qr] rest IH]; intros self.
  - repeat split; [done..|]. intros H. by destruct H.
  - unfold result, exec in *. rewrite submit_all_cons.
    set (x := performance_score_of qr).
    destruct (IH (logged self u x)) as (Hok & Hsame & Hmore).
    split; [exact Hok|]. rewrite appended_scores_cons.
    destruct (decide (u = user_id)) as [->|Hne].
    + split; [done|]. intros _.
      destruct (decide (appended_scores user_id rest = [])) as [Hnil|Hcons].
      * rewrite (Hsame Hnil), Hnil. unfold logged. cbn.
        by rewrite lookup_insert_eq.
      * rewrite (Hmore Hcons), history_of_logged.
        destruct (decide (user_id = user_id)); [|done].
        rewrite PyFacts.last_n_window. by rewrite <- app_assoc.
    + assert (user_performance_history (logged self u x) !! user_id
              = user_performance_history self !! user_id) as Hkeep.
      { unfold logged. cbn. by rewrite lookup_insert_ne. }
      split; intros H.
      * by rewrite (Hsame H).
      * rewrite (Hmore H). unfold history_of. by rewrite Hkeep.
Qed.

(** C2. Once more than 20 scores of a user have been appended (one per
    call of [calculate_next_difficulty], in any interleaving with other
    users' calls and from any adapter), the stored history of that user
    has exactly 20 entries: the 20 scores appended last, in the order
    they were appended. *)
Theorem history_keeps_last_20
    (self : QuizAdapter) (user_id : Z) (calls : list (Z * Z * QuizResult)) :
  (20 < length (appended_scores user_id calls))%nat ->
  result (submit_all calls) self = Ok tt /\
  exists stored : list Q,
    user_performance_history (exec (submit_all calls) self) !! user_id = Some stored /\
    length stored = 20%nat /\
    stored = drop (length (appended_scores user_id calls) - 20)
                  (appended_scores user_id calls).
Proof.
  intros Hlen.
  destruct (submit_all_history user_id calls self) as (Hok & _ & Hmore).
  split; [exact Hok|].
  exists (Py.last_n 20 (appended_scores user_id calls)).
  rewrite Hmore by (intros E; rewrite E in Hlen; simpl in Hlen; lia).
  rewrite PyFacts.last_n_app by lia.
  split; [reflexivity|]. split; [|reflexivity].
  rewrite PyFacts.last_n_length. lia.
Qed.

Lemma history_keeps_last_20_witness :
  exists stored : list Q,
    user_performance_history
      (exec (submit_all
               (replicate 21
                  (7%Z, 2%Z, {| is_correct := Some true; time_taken := Some 30;
                                confidence := Some 0.9 |})))
            (init id (fun _ => true))) !! 7%Z = Some stored /\
    length stored = 20%nat.
Proof.
  destruct (history_keeps_last_20 (init id (fun _ => true)) 7
              (replicate 21
                 (7%Z, 2%Z, {| is_correct := Some true; time_taken := Some 30;
                               confidence := Some 0.9 |})))
    as (_ & stored & Hstored & Hlen & _); [vm_compute; lia|].
  exists stored. split; [exact Hstored | exact Hlen].
Defined.

(** ** Calls that only read *)

Lemma read_only_ret {A} (a : A) : read_only (ret a).
Proof. by intros self. Qed.

Lemma read_only_raise {A} (e : exn) : read_only (@raise A e).
Proof. by intros self. Qed.

Lemma read_only_get_self : read_only get_self.
Proof. by intros self. Qed.

Lemma read_only_bind {A B} (m : M A) (k : A -> M B) :
  read_only m -> (forall a, read_only (k a)) -> read_only (bind m k).
Proof.
  intros Hm Hk self. specialize (Hm self). unfold exec, bind in *.
  destruct (m self) as [[a|e] self']; simpl in Hm; subst self'.
  - apply Hk.
  - reflexivity.
Qed.

Lemma read_only_for_each {A} (body : Z -> A -> M A) (xs : list Z) :
  (forall i acc, read_only (body i acc)) ->
  forall acc, read_only (for_each xs body acc).
Proof.
  intros Hbody. induction xs as [|i xs IH]; intros acc; simpl.
  - apply read_only_ret.
  - apply read_only_bind; [apply Hbody | exact IH].
Qed.

Lemma read_only_dict_index {V} (d : gmap Z V) (key : Z) : read_only (dict_index d key).
Proof.
  unfold dict_index. destruct (d !! key); [apply read_only_ret | apply read_only_raise].
Qed.

Lemma read_only_list_index_last {A} (l : list A) : read_only (list_index_last l).
Proof.
  unfold list_index_last. destruct (last l); [apply read_only_ret | apply read_only_raise].
Qed.

Lemma read_only_list_index_first {A} (l : list A) : read_only (list_index_first l).
Proof.
  unfold list_index_first. destruct (head l); [apply read_only_ret | apply read_only_raise].
Qed.

(** Walks the binds and the branches of a method body down to its leaves. *)
Ltac frame :=
  repeat first
    [ apply read_only_ret
    | apply read_only_raise
    | apply read_only_get_self
    | apply read_only_dict_index
    | apply read_only_list_index_last
    | apply read_only_list_index_first
    | apply read_only_bind; [|intros ?]
    | match goal with
      | |- read_only (match ?x with _ => _ end) => destruct x
      end ].

Lemma read_only_adjust base_difficulty user_id question_index :
  read_only (_adjust_question_difficulty base_difficulty user_id question_index).
Proof. unfold _adjust_question_difficulty. frame. Qed.

Lemma read_only_generate topic difficulty question_num :
  read_only (_generate_sample_question topic difficulty question_num).
Proof. unfold _generate_sample_question. frame. Qed.

Lemma read_only_questions topic user_id current_difficulty num_questions :
  read_only (get_adaptive_questions topic user_id current_difficulty num_questions).
Proof.
  unfold get_adaptive_questions. apply read_only_for_each. intros i acc.
  apply read_only_bind; [apply read_only_adjust | intros d].
  apply read_only_bind; [apply read_only_generate | intros q].
  apply read_only_ret.
Qed.

Lemma read_only_evaluate `{EqDecision A} (user_answer correct_answer : A) time conf :
  read_only (evaluate_answer user_answer correct_answer time conf).
Proof. unfold evaluate_answer, _generate_feedback. frame. Qed.

Lemma read_only_analytics user_id : read_only (get_performance_analytics user_id).
Proof. unfold get_performance_analytics. frame. Qed.

(** A call that only reads answers the same however often it is made. *)
Lemma read_only_iter {A} (m : M A) (k : nat) (self : QuizAdapter) :
  read_only m -> Nat.iter k (exec m) self = self.
Proof.
  intros Hm. induction k as [|k IH]; simpl; [reflexivity|].
  by rewrite IH, Hm.
Qed.

(** ** The scoring arithmetic *)

(** Linear arithmetic once the division by the five-minute cap is read as
    a multiplication by its inverse. *)
Ltac cap_lra :=
  unfold unit_interval, Qdiv in *;
  change (/ 300) with (1 # 300) in *;
  lra.

Lemma performance_score_formula quiz_result :
  performance_score_of quiz_result
  = clamp01 (correctness_of quiz_result
             - Qmax 0 (time_of quiz_result / 300 * 0.3)
             + confidence_of quiz_result * 0.2).
Proof.
  unfold clamp01. rewrite <- !PyFacts.max_Qmax, <- PyFacts.min_Qmin. reflexivity.
Qed.

Lemma performance_score_unit quiz_result : unit_interval (performance_score_of quiz_result).
Proof. apply PyFacts.clamp_unit. Qed.

Lemma _get_previous_performance_value self user_id :
  _get_previous_performance user_id self
  = (Ok (match history_of self user_id with
         | [] => 0.5
         | _ :: _ => Py.mean (Py.last_n 5 (history_of self user_id))
         end), self).
Proof.
  unfold _get_previous_performance, history_of, bind, get_self.
  destruct (user_performance_history self !! user_id) as [[|x h]|]; reflexivity.
Qed.

Lemma features_formula self user_id quiz_result :
  features_of self user_id quiz_result
  = [ correctness_of quiz_result;
      Qmax 0 (1 - time_of quiz_result / 300);
      confidence_of quiz_result;
      match history_of self user_id with
      | [] => 0.5
      | _ :: _ => Py.mean (Py.last_n 5 (history_of self user_id))
      end ].
Proof.
  unfold features_of, returned, result, _extract_features, bind.
  rewrite _get_previous_performance_value. cbn [fst ret].
  by rewrite <- PyFacts.max_Qmax.
Qed.

Lemma previous_performance_unit (history : list Q) :
  Forall unit_interval history ->
  unit_interval (match history with
                 | [] => 0.5
                 | _ :: _ => Py.mean (Py.last_n 5 history)
                 end).
Proof.
  intros Hh. destruct history as [|x h]; [unfold unit_interval; lra|].
  apply PyFacts.mean_unit; [|by apply PyFacts.last_n_Forall].
  intros E. apply (f_equal length) in E.
  rewrite PyFacts.last_n_length in E. simpl in E. lia.
Qed.

Lemma time_score_unit (t : Q) : 0 <= t -> unit_interval (Qmax 0 (1 - t / 300)).
Proof.
  intros Ht. rewrite <- PyFacts.max_Qmax. split.
  - apply PyFacts.max_lower.
  - apply PyFacts.max_upper; cap_lra.
Qed.

Lemma reachable_history_unit (self : QuizAdapter) :
  reachable self -> forall user_id, Forall unit_interval (history_of self user_id).
Proof.
  induction 1 as [sc md | self u d qr _ IH | self t u d n _ IH
                 | self ua ca t c _ IH | self u _ IH]; intros user_id.
  - unfold history_of, init. cbn. rewrite lookup_empty. constructor.
  - unfold exec. rewrite calculate_next_difficulty_run. cbn [snd].
    rewrite history_of_logged. destruct (decide (u = user_id)); [|apply IH].
    apply PyFacts.last_n_Forall, Forall_app. split; [apply IH|].
    constructor; [apply performance_score_unit | constructor].
  - rewrite read_only_questions. apply IH.
  - rewrite read_only_evaluate. apply IH.
  - rewrite read_only_analytics. apply IH.
Qed.

Lemma last_of_window {A} (l : list A) (x : A) : last (Py.last_n 20 (l ++ [x])) = Some x.
Proof.
  unfold Py.last_n. rewrite length_app. simpl.
  rewrite drop_app_le by lia. apply last_snoc.
Qed.

(** ** Out-of-range inputs *)


(** ** The feature vector *)

(** C8. For a quiz result with a non-negative time and a confidence in the
    unit interval, and a history of the user whose entries lie in the unit
    interval, [_extract_features] returns four components, each in the
    unit interval; the time score is 1 at time 0 and 0 from 300 seconds
    on (so at 300 and at 10000). *)
Theorem features_in_unit_interval
    (self : QuizAdapter) (user_id : Z) (quiz_result : QuizResult) :
  (forall t, time_taken quiz_result = Some t -> 0 <= t) ->
  (forall c, confidence quiz_result = Some c -> unit_interval c) ->
  Forall unit_interval (history_of self user_id) ->
  exists correctness time_score conf previous_performance : Q,
    result (_extract_features user_id quiz_result) self
    = Ok [correctness; time_score; conf; previous_performance] /\
    unit_interval correctness /\
    unit_interval time_score /\
    unit_interval conf /\
    unit_interval previous_performance /\
    (time_of quiz_result == 0 -> time_score == 1) /\
    (300 <= time_of quiz_result -> time_score == 0).
Proof.
  intros Htime Hconf Hhist. unfold result.
  rewrite _extract_features_run, features_formula. cbn [fst].
  do 4 eexists. split; [reflexivity|].
  assert (0 <= time_of quiz_result) as Ht.
  { unfold time_of. destruct (time_taken quiz_result) as [t|] eqn:E; cbn; [by apply Htime | lra]. }
  split; [|split; [|split; [|split; [|split]]]].
  - unfold correctness_of, unit_interval.
    destruct (dict_get (is_correct quiz_result) false); lra.
  - by apply time_score_unit.
  - unfold confidence_of.
    destruct (confidence quiz_result) as [c|] eqn:E; cbn; [by apply Hconf|].
    unfold unit_interval; lra.
  - by apply previous_performance_unit.
  - intros H0. assert (0 <= 1 - time_of quiz_result / 300) as Hle by cap_lra.
    rewrite (Q.max_r _ _ Hle). cap_lra.
  - intros H300. apply Q.max_l. cap_lra.
Qed.

Lemma features_in_unit_interval_witness :
  exists correctness time_score conf previous_performance : Q,
    result (_extract_features 7
              {| is_correct := Some true; time_taken := Some 10000; confidence := Some 1 |})
           (init id (fun _ => true))
    = Ok [correctness; time_score; conf; previous_performance] /\
    unit_interval time_score /\ time_score == 0.
Proof.
  destruct (features_in_unit_interval (init id (fun _ => true)) 7
              {| is_correct := Some true; time_taken := Some 10000; confidence := Some 1 |})
    as (c & ts & cf & pp & Hrun & _ & Hts & _ & _ & _ & Hzero).
  - intros t [= <-]. lra.
  - intros c [= <-]. unfold unit_interval. lra.
  - constructor.
  - exists c, ts, cf, pp. split; [exact Hrun|]. split; [exact Hts|].
    apply Hzero. cbn. lra.
Defined.


(** ** The batch of questions *)

Lemma _adjust_question_difficulty_run self base_difficulty user_id question_index :
  _adjust_question_difficulty base_difficulty user_id question_index self
  = (Ok (adjusted_level self base_difficulty user_id), self).
Proof.
  unfold adjusted_level, returned, result, _adjust_question_difficulty, bind, get_self.
  destruct (user_performance_history self !! user_id) as [h|]; [|reflexivity].
  destruct (length h =? 0)%nat eqn:Hlen; [reflexivity|].
  destruct (3 <=? length h)%nat; [reflexivity|].
  unfold list_index_last. destruct (last h) as [x|] eqn:Hlast; [reflexivity|].
  apply last_None in Hlast. by subst h.
Qed.

Lemma adjusted_level_cases self base_difficulty user_id :
  adjusted_level self base_difficulty user_id
  = match history_of self user_id with
    | [] => base_difficulty
    | _ :: _ =>
        let trend := recent_trend (history_of self user_id) in
        Z.max 1 (Z.min 3
          (if Py.ltb 0.7 trend then Z.min 3 (base_difficulty + 1)
           else if Py.ltb trend 0.3 then Z.max 1 (base_difficulty - 1)
           else base_difficulty))
    end.
Proof.
  unfold adjusted_level, returned, result, _adjust_question_difficulty, bind, get_self,
    history_of, recent_trend.
  destruct (user_performance_history self !! user_id) as [[|x h]|]; try reflexivity.
  cbn [dict_get]. change (length (x :: h) =? 0)%nat with false. cbv iota.
  destruct (3 <=? length (x :: h))%nat; [reflexivity|].
  unfold list_index_last. destruct (last (x :: h)) as [y|] eqn:Hlast; [reflexivity|].
  by apply last_None in Hlast.
Qed.

Lemma adjusted_level_nonempty self base_difficulty user_id :
  history_of self user_id <> [] ->
  adjusted_level self base_difficulty user_id
  = Z.max 1 (Z.min 3
      (if Py.ltb 0.7 (recent_trend (history_of self user_id))
       then Z.min 3 (base_difficulty + 1)
       else if Py.ltb (recent_trend (history_of self user_id)) 0.3
       then Z.max 1 (base_difficulty - 1)
       else base_difficulty)).
Proof.
  intros Hne. rewrite adjusted_level_cases.
  by destruct (history_of self user_id).
Qed.

Lemma adjusted_level_range self base_difficulty user_id :
  (1 <= base_difficulty <= 3)%Z ->
  (1 <= adjusted_level self base_difficulty user_id <= 3)%Z.
Proof.
  intros H. rewrite adjusted_level_cases.
  destruct (history_of self user_id); [done|]. cbv zeta. lia.
Qed.

Lemma _generate_sample_question_level topic difficulty question_num self (q : Question) self' :
  _generate_sample_question topic difficulty question_num self = (Ok q, self') ->
  difficulty_level q = difficulty.
Proof.
  unfold _generate_sample_question, bind, dict_index.
  repeat match goal with
         | |- context [match ?m !! ?k with _ => _ end] => destruct (m !! k)
         end; cbn; intros [= <- _]; try reflexivity.
Qed.

Lemma _generate_sample_question_run topic difficulty question_num self :
  (1 <= difficulty <= 3)%Z ->
  _generate_sample_question topic difficulty question_num self
  = (Ok (sample_question topic difficulty question_num), self).
Proof.
  intros H.
  assert (difficulty = 1 \/ difficulty = 2 \/ difficulty = 3)%Z as [->|[->| ->]] by lia;
    reflexivity.
Qed.

(** The loop of [get_adaptive_questions], from any list of indices and
    any questions gathered so far. *)
Lemma questions_loop topic user_id current_difficulty (xs : list Z) self :
  forall acc : list Question,
    let body := fun (i : Z) (questions : list Question) =>
      question_difficulty <- _adjust_question_difficulty current_difficulty user_id i ;;
      question <- _generate_sample_question topic question_difficulty (i + 1)%Z ;;
      ret (questions ++ [question]) in
    forall qs, result (for_each xs body acc) self = Ok qs ->
    exists new : list Question,
      qs = acc ++ new /\ length new = length xs /\
      Forall (fun q => difficulty_level q = adjusted_level self current_difficulty user_id) new.
Proof.
  induction xs as [|i xs IH]; intros acc body qs; unfold result; cbn [for_each].
  - intros [= <-]. exists []. by rewrite app_nil_r.
  - unfold bind at 1. unfold body at 1, bind at 1.
    rewrite _adjust_question_difficulty_run. unfold bind at 1.
    pose proof (read_only_generate topic (adjusted_level self current_difficulty user_id)
                  (i + 1) self) as Hframe. unfold exec in Hframe.
    destruct (_generate_sample_question topic _ (i + 1) self) as [[q|e] self'] eqn:Hgen;
      simpl in Hframe; subst self'; [|discriminate].
    unfold ret at 1. intros Hrest.
    destruct (IH (acc ++ [q]) qs Hrest) as (new & -> & Hlen & Hall).
    exists (q :: new). rewrite <- app_assoc. split; [reflexivity|].
    split; [simpl; lia|]. constructor; [|exact Hall].
    eapply _generate_sample_question_level, Hgen.
Qed.

Lemma questions_loop_total topic user_id current_difficulty (xs : list Z) self :
  (1 <= current_difficulty <= 3)%Z ->
  forall acc : list Question,
    for_each xs
      (fun (i : Z) (questions : list Question) =>
         question_difficulty <- _adjust_question_difficulty current_difficulty user_id i ;;
         question <- _generate_sample_question topic question_difficulty (i + 1)%Z ;;
         ret (questions ++ [question])) acc self
    = (Ok (acc ++ map (fun i => sample_question topic
                                  (adjusted_level self current_difficulty user_id) (i + 1)%Z) xs),
       self).
Proof.
  intros Hd. induction xs as [|i xs IH]; intros acc; cbn [for_each map].
  - by rewrite app_nil_r.
  - unfold bind at 1. unfold bind at 1.
    rewrite _adjust_question_difficulty_run. unfold bind at 1.
    rewrite _generate_sample_question_run by by apply adjusted_level_range.
    unfold ret at 1. rewrite IH. by rewrite <- app_assoc.
Qed.

(** C4, refuted as stated. After a wrong and then a right answer, both
    instant and given without confidence, the history of user 7 is two
    entries, 0 and 1. Their mean is 1/2, so the specification's rule keeps
    base level 1; the code looks at the last entry alone, which is 1, and
    proposes level 2. *)
Lemma short_history_uses_last_entry_only :
  let self :=
    exec (submit_all
            [(7%Z, 1%Z, {| is_correct := Some false; time_taken := Some 0; confidence := Some 0 |});
             (7%Z, 1%Z, {| is_correct := Some true; time_taken := Some 0; confidence := Some 0 |})])
         (init id (fun _ => true)) in
  Forall2 Qeq (history_of self 7) [0; 1] /\
  result (_adjust_question_difficulty 1 7 0) self = Ok 2%Z /\
  spec_adjust_question_difficulty 1 (history_of self 7) = 1%Z.
Proof.
  intros self. split; [|split].
  - vm_compute. repeat constructor.
  - by vm_compute.
  - by vm_compute.
Qed.

(** ** Reading leaves the adapter alone *)

(** C9. [get_performance_analytics], [get_adaptive_questions] and
    [_adjust_question_difficulty] return the adapter they were given,
    history included; so however many times one of them has been called
    before, the next call returns what the first did. *)
Theorem read_paths_leave_history
    (self : QuizAdapter) (user_id topic current_difficulty num_questions question_index : Z)
    (k : nat) :
  exec (get_performance_analytics user_id) self = self /\
  exec (get_adaptive_questions topic user_id current_difficulty num_questions) self = self /\
  exec (_adjust_question_difficulty current_difficulty user_id question_index) self = self /\
  result (get_performance_analytics user_id)
    (Nat.iter k (exec (get_performance_analytics user_id)) self)
  = result (get_performance_analytics user_id) self /\
  result (get_adaptive_questions topic user_id current_difficulty num_questions)
    (Nat.iter k (exec (get_adaptive_questions topic user_id current_difficulty num_questions)) self)
  = result (get_adaptive_questions topic user_id current_difficulty num_questions) self /\
  result (_adjust_question_difficulty current_difficulty user_id question_index)
    (Nat.iter k (exec (_adjust_question_difficulty current_difficulty user_id question_index)) self)
  = result (_adjust_question_difficulty current_difficulty user_id question_index) self.
Proof.
  split; [apply read_only_analytics|].
  split; [apply read_only_questions|].
  split; [apply read_only_adjust|].
  split; [|split].
  - by rewrite read_only_iter by apply read_only_analytics.
  - by rewrite read_only_iter by apply read_only_questions.
  - by rewrite read_only_iter by apply read_only_adjust.
Qed.


(** ** Analytics *)

Lemma analytics_flags self user_id (history : list Q) :
  user_performance_history self !! user_id = Some history ->
  history <> [] ->
  exists a : Analytics,
    result (get_performance_analytics user_id) self = Ok a /\
    total_attempts a = length history /\
    strengths a
    = (if Py.ltb 0.7 (Py.mean history) then ["Consistent high performance"%string] else []) /\
    weaknesses a
    = (if Py.ltb (Py.mean history) 0.4 then ["Need for fundamental review"%string] else []).
Proof.
  intros Hh Hne. unfold result, get_performance_analytics, bind at 1, get_self.
  rewrite Hh. destruct history as [|x h]; [done|].
  change (length (x :: h) =? 0)%nat with false. cbv iota.
  unfold bind at 1.
  destruct (3 <=? length (x :: h))%nat.
  - unfold bind at 1. destruct (3 <? length (x :: h))%nat; cbn; eexists; eauto.
  - cbn. eexists; eauto.
Qed.

(** C7, refuted as stated. A right answer given in exactly 300 seconds
    without confidence scores 1 - 0.3 + 0, so the history of user 7 is
    the single entry 0.7 and its average is 0.7, which is at least 0.7;
    the analytics carry no strength flag. *)
Lemma average_of_seven_tenths_is_no_strength :
  let self :=
    exec (calculate_next_difficulty 7 2
            {| is_correct := Some true; time_taken := Some 300; confidence := Some 0 |})
         (init id (fun _ => true)) in
  exists (history : list Q) (a : Analytics),
    user_performance_history self !! 7%Z = Some history /\
    history <> [] /\
    0.7 <= Py.mean history /\
    result (get_performance_analytics 7) self = Ok a /\
    strengths a = [].
Proof.
  intros self. do 2 eexists.
  split; [vm_compute; reflexivity|].
  split; [discriminate|].
  split; [by vm_compute|].
  split; [vm_compute; reflexivity|].
  reflexivity.
Qed.

(** ** The scenarios of the specification that need no classifier *)

(** A user never seen gets the zero baseline, and no error. *)
Example analytics_of_unknown_user :
  result (get_performance_analytics 7) (init id (fun _ => true))
  = Ok {| total_attempts := 0; average_score := 0; improvement_trend := "stable";
          strengths := []; weaknesses := []; recent_performance := None |}.
Proof. reflexivity. Qed.

(** Twenty-five answers of one user leave twenty scores. *)
Example twenty_five_answers_leave_twenty :
  length (history_of
            (exec (submit_all
                     (replicate 25
                        (7%Z, 2%Z, {| is_correct := Some true; time_taken := Some 30;
                                      confidence := Some 0.9 |})))
                  (init id (fun _ => true)))
            7) = 20%nat.
Proof. by vm_compute. Qed.

(** The time score at the three boundary times 0, 300 and 10000. *)
Example time_score_at_the_boundaries :
  Forall2 (fun t expected =>
             exists c cf pp,
               result (_extract_features 7
                         {| is_correct := Some true; time_taken := Some t;
                            confidence := Some 0.5 |})
                      (init id (fun _ => true))
               = Ok [c; expected; cf; pp])
          [0; 300; 10000]
          [Py.max 0 (1 - 0 / 300); Py.max 0 (1 - 300 / 300); Py.max 0 (1 - 10000 / 300)] /\
  Forall2 Qeq
          [Py.max 0 (1 - 0 / 300); Py.max 0 (1 - 300 / 300); Py.max 0 (1 - 10000 / 300)]
          [1; 0; 0].
Proof.
  split.
  - repeat constructor; do 3 eexists; reflexivity.
  - vm_compute. repeat constructor.
Qed.


(** * Further properties of the adapter and of its caller *)

(** ** What one answer does to the adapter *)

(** X1. A call of [calculate_next_difficulty] rewrites the history of its
    own user, to the last 20 of the old entries followed by the new
    score, and nothing else: every other user's history, the scaler, the
    model and the weights are what they were. *)
Theorem calculate_next_difficulty_touches_one_history
    (self : QuizAdapter) (user_id current_difficulty : Z) (quiz_result : QuizResult) :
  let after := exec (calculate_next_difficulty user_id current_difficulty quiz_result) self in
  user_performance_history after !! user_id
  = Some (Py.last_n 20 (history_of self user_id ++ [performance_score_of quiz_result])) /\
  (forall other : Z, other <> user_id ->
     user_performance_history after !! other = user_performance_history self !! other) /\
  scaler after = scaler self /\
  difficulty_model after = difficulty_model self /\
  difficulty_weights after = difficulty_weights self.
Proof.
  intros after. subst after. unfold exec. rewrite calculate_next_difficulty_run.
  cbn [snd]. unfold logged. cbn. split; [apply lookup_insert_eq|].
  split; [|done]. intros other Hne. by rewrite lookup_insert_ne.
Qed.

(** X2. In an adapter a process can hold, a stored history is never
    empty and never longer than 20: a key appears only with its first
    score, and the window is cut after every append. *)
Theorem stored_history_length
    (self : QuizAdapter) (user_id : Z) (history : list Q) :
  reachable self ->
  user_performance_history self !! user_id = Some history ->
  (1 <= length history <= 20)%nat.
Proof.
  intros Hreach. revert user_id history.
  induction Hreach as [sc md | self u d qr _ IH | self t u d n _ IH
                      | self ua ca t c _ IH | self u _ IH]; intros user_id history.
  - unfold init. cbn. by rewrite lookup_empty.
  - unfold exec. rewrite calculate_next_difficulty_run. cbn [snd].
    unfold logged. cbn. rewrite lookup_insert.
    destruct (decide (u = user_id)) as [->|Hne]; [|apply IH].
    intros [= <-]. rewrite PyFacts.last_n_length, length_app. cbn [length]. lia.
  - rewrite read_only_questions. apply IH.
  - rewrite read_only_evaluate. apply IH.
  - rewrite read_only_analytics. apply IH.
Qed.

Lemma stored_history_length_witness :
  exists history : list Q,
    user_performance_history
      (exec (calculate_next_difficulty 7 2
               {| is_correct := Some true; time_taken := Some 30; confidence := Some 0.9 |})
            (init id (fun _ => true))) !! 7%Z = Some history /\
    (1 <= length history <= 20)%nat.
Proof.
  eexists. split; [vm_compute; reflexivity|].
  eapply (stored_history_length
            (exec (calculate_next_difficulty 7 2
                     {| is_correct := Some true; time_taken := Some 30;
                        confidence := Some 0.9 |})
                  (init id (fun _ => true))) 7).
  - apply reach_calculate, reach_init.
  - vm_compute. reflexivity.
Defined.

(** X3. Below 20 stored scores an answer only appends; from 20 on it
    also evicts from the head, so that with exactly 20 stored scores the
    oldest one goes and the other 19 keep their order in front of the new
    score. *)
Theorem history_appends_then_slides
    (self : QuizAdapter) (user_id current_difficulty : Z) (quiz_result : QuizResult) :
  let old := history_of self user_id in
  let new :=
    history_of (exec (calculate_next_difficulty user_id current_difficulty quiz_result) self)
               user_id in
  let x := performance_score_of quiz_result in
  ((length old < 20)%nat -> new = old ++ [x]) /\
  ((20 <= length old)%nat -> new = drop (length old - 19) old ++ [x] /\ length new = 20%nat) /\
  (length old = 20%nat -> new = tail old ++ [x]).
Proof.
  intros old new x. subst new. unfold exec. rewrite calculate_next_difficulty_run.
  cbn [snd]. rewrite history_of_logged. destruct (decide (user_id = user_id)); [|done].
  fold old x.
  assert ((20 <= length old)%nat -> Py.last_n 20 (old ++ [x]) = drop (length old - 19) old ++ [x])
    as Hslide.
  { intros Hlen. unfold Py.last_n. rewrite length_app. simpl.
    replace (length old + 1 - 20)%nat with (length old - 19)%nat by lia.
    by rewrite drop_app_le by lia. }
  split; [|split].
  - intros Hlen. apply PyFacts.last_n_short. rewrite length_app. simpl. lia.
  - intros Hlen. rewrite (Hslide Hlen). split; [reflexivity|].
    rewrite length_app, length_drop. simpl. lia.
  - intros Hlen. rewrite Hslide by lia. rewrite Hlen. simpl.
    by destruct old.
Qed.

(** X4. [calculate_next_difficulty] returns for every current level, also
    one outside 1..3, and never raises; the level it returns is at most
    one step away and is never further outside 1..3 than the current
    one: above 3 it can only come down, below 1 it can only go up. *)
Theorem calculate_next_difficulty_any_level
    (self : QuizAdapter) (user_id current_difficulty : Z) (quiz_result : QuizResult) :
  exists next : Z,
    result (calculate_next_difficulty user_id current_difficulty quiz_result) self = Ok next /\
    (Z.abs (next - current_difficulty) <= 1)%Z /\
    (Z.min current_difficulty 1 <= next <= Z.max current_difficulty 3)%Z /\
    ((3 <= current_difficulty)%Z -> (next <= current_difficulty)%Z) /\
    ((current_difficulty <= 1)%Z -> (current_difficulty <= next)%Z).
Proof.
  unfold result. rewrite calculate_next_difficulty_run. cbn [fst].
  eexists. split; [reflexivity|].
  destruct (prediction self user_id quiz_result); cbn [andb negb];
    destruct (Z.ltb_spec current_difficulty 3);
    destruct (Z.ltb_spec 1 current_difficulty); lia.
Qed.

(** ** Order in the two scores *)

Lemma max_monotone a b b' : b <= b' -> Py.max a b <= Py.max a b'.
Proof.
  intros H. unfold Py.max.
  destruct (PyFacts.ltb_cases a b) as [[-> ?] | [-> ?]];
    destruct (PyFacts.ltb_cases a b') as [[-> ?] | [-> ?]]; lra.
Qed.

Lemma min_monotone a b b' : b <= b' -> Py.min a b <= Py.min a b'.
Proof.
  intros H. unfold Py.min.
  destruct (PyFacts.ltb_cases b a) as [[-> ?] | [-> ?]];
    destruct (PyFacts.ltb_cases b' a) as [[-> ?] | [-> ?]]; lra.
Qed.

(** X5. The performance score is monotone in each input: an answer that
    is at least as correct, at least as quick and at least as confident
    scores at least as high. *)
Theorem performance_score_monotone (worse better : QuizResult) :
  correctness_of worse <= correctness_of better ->
  time_of better <= time_of worse ->
  confidence_of worse <= confidence_of better ->
  performance_score_of worse <= performance_score_of better.
Proof.
  intros Hc Ht Hf. rewrite !performance_score_formula. unfold clamp01.
  rewrite <- !PyFacts.max_Qmax, <- !PyFacts.min_Qmin.
  apply max_monotone, min_monotone.
  assert (Py.max 0 (time_of better / 300 * 0.3) <= Py.max 0 (time_of worse / 300 * 0.3))
    as Hpenalty by (apply max_monotone; cap_lra).
  lra.
Qed.

Lemma performance_score_monotone_witness :
  performance_score_of
    {| is_correct := Some false; time_taken := Some 200; confidence := Some 0.2 |}
  <= performance_score_of
       {| is_correct := Some true; time_taken := Some 30; confidence := Some 0.9 |}.
Proof.
  apply performance_score_monotone; cbn; lra.
Defined.

(** X6. With a time and a confidence that are not negative,
    [evaluate_answer] gives a correct answer at least 10 points and a
    wrong answer at most 5; the score of a wrong answer does not depend
    on the confidence, and is 0 once 300 seconds have passed. *)
Theorem evaluate_answer_correct_beats_wrong `{EqDecision A}
    (self : QuizAdapter) (user_answer correct_answer : A) (time conf : Q) :
  0 <= time -> 0 <= conf ->
  exists ev : Evaluation,
    result (evaluate_answer user_answer correct_answer time conf) self = Ok ev /\
    (user_answer = correct_answer -> (10 <= score ev)%Z) /\
    (user_answer <> correct_answer ->
     (0 <= score ev <= 5)%Z /\
     (300 <= time -> score ev = 0%Z) /\
     forall (other_conf : Q) (ev' : Evaluation),
       result (evaluate_answer user_answer correct_answer time other_conf) self = Ok ev' ->
       score ev' = score ev).
Proof.
  intros Htime Hconf. eexists. split; [reflexivity|]. cbn [score].
  assert (0 <= Py.max 0 ((300 - time) / 300 * 5) <= 5) as [Hb0 Hb5].
  { split; [apply PyFacts.max_lower | apply PyFacts.max_upper; cap_lra]. }
  split.
  - intros Heq. rewrite (bool_decide_eq_true_2 _ Heq).
    set (total := 10 + Py.max 0 ((300 - time) / 300 * 5) + conf * 2).
    assert (10 <= total) as Hlo by (subst total; lra).
    rewrite PyFacts.int_floor by lra.
    rewrite <- (Qfloor_Z 10). by apply Qfloor_resp_le.
  - intros Hne. rewrite (bool_decide_eq_false_2 _ Hne).
    set (total := 0 + Py.max 0 ((300 - time) / 300 * 5) + 0).
    split; [|split].
    + assert (0 <= total <= 5) as [H0 H5] by (subst total; lra).
      apply (PyFacts.int_bounds total 0 5); [lia | exact H0 | exact H5].
    + intros Hlate.
      assert (Py.max 0 ((300 - time) / 300 * 5) = 0) as Hzero.
      { unfold Py.max.
        destruct (PyFacts.ltb_cases 0 ((300 - time) / 300 * 5)) as [[-> H] | [-> H]];
          [exfalso; cap_lra | reflexivity]. }
      subst total. rewrite Hzero. reflexivity.
    + intros other_conf ev'. unfold result, evaluate_answer, _generate_feedback, bind, ret.
      rewrite (bool_decide_eq_false_2 _ Hne). cbn. by intros [= <-].
Qed.

Lemma evaluate_answer_correct_beats_wrong_witness :
  exists ev : Evaluation,
    result (evaluate_answer "B"%string "A"%string 30 0.9) (init id (fun _ => true)) = Ok ev /\
    (0 <= score ev <= 5)%Z.
Proof.
  destruct (evaluate_answer_correct_beats_wrong (init id (fun _ => true))
              "B"%string "A"%string 30 0.9) as (ev & Hrun & _ & Hwrong); [lra | lra |].
  exists ev. split; [exact Hrun|]. apply Hwrong. discriminate.
Defined.

(** ** Generating questions *)

Lemma _generate_sample_question_missing topic difficulty question_num self :
  ~ (1 <= difficulty <= 3)%Z ->
  _generate_sample_question topic difficulty question_num self
  = (Raise (KeyError difficulty), self).
Proof.
  intros Hout. unfold _generate_sample_question, bind, dict_index.
  rewrite lookup_insert_eq. unfold ret at 1.
  rewrite lookup_insert_ne by lia. rewrite lookup_insert_ne by lia.
  rewrite lookup_singleton_ne by lia. reflexivity.
Qed.

Lemma sample_question_id topic difficulty question_num :
  (1 <= difficulty <= 3)%Z ->
  q_id (sample_question topic difficulty question_num)
  = ("q_" +:+ pretty topic +:+ "_" +:+ pretty question_num)%string.
Proof.
  intros H.
  assert (difficulty = 1 \/ difficulty = 2 \/ difficulty = 3)%Z as [->|[->| ->]] by lia;
    reflexivity.
Qed.

(** X7. [_generate_sample_question] has a question for the levels 1, 2
    and 3 only. For one of these it returns a question labelled and
    worth that level, with the text of that level, four options numbered
    1 to 4 of which the first is correct, and the id made of the topic
    and the question number; for any other level it raises
    [KeyError(level)], so the level-1 text that [.get] would fall back to
    is never served. Either way the adapter is left alone. *)
Theorem generate_sample_question_levels
    (self : QuizAdapter) (topic difficulty question_num : Z) :
  exec (_generate_sample_question topic difficulty question_num) self = self /\
  (~ (1 <= difficulty <= 3)%Z ->
   result (_generate_sample_question topic difficulty question_num) self
   = Raise (KeyError difficulty)) /\
  ((1 <= difficulty <= 3)%Z ->
   exists q : Question,
     result (_generate_sample_question topic difficulty question_num) self = Ok q /\
     difficulty_level q = difficulty /\
     points q = difficulty /\
     topic_id q = topic /\
     correct_option q = 1%Z /\
     (options q).*1 = [1; 2; 3; 4]%Z /\
     q_id q = ("q_" +:+ pretty topic +:+ "_" +:+ pretty question_num)%string /\
     question_text q
     = (if (difficulty =? 1)%Z then
          "What is the basic concept of topic " +:+ pretty topic +:+ "?"
        else if (difficulty =? 2)%Z then
          "How does topic " +:+ pretty topic +:+ " relate to other concepts?"
        else
          "Explain the advanced applications of topic " +:+ pretty topic +:+ ".")%string).
Proof.
  split; [apply read_only_generate|]. split.
  - intros Hout. unfold result. by rewrite _generate_sample_question_missing.
  - intros Hin. unfold result.
    assert (difficulty = 1 \/ difficulty = 2 \/ difficulty = 3)%Z as [->|[->| ->]] by lia;
      eexists; (split; [reflexivity|]); repeat split.
Qed.

Lemma questions_loop_at_level topic user_id current_difficulty (xs : list Z) self :
  (1 <= adjusted_level self current_difficulty user_id <= 3)%Z ->
  forall acc : list Question,
    for_each xs
      (fun (i : Z) (questions : list Question) =>
         question_difficulty <- _adjust_question_difficulty current_difficulty user_id i ;;
         question <- _generate_sample_question topic question_difficulty (i + 1)%Z ;;
         ret (questions ++ [question])) acc self
    = (Ok (acc ++ ((fun i => sample_question topic
                               (adjusted_level self current_difficulty user_id) (i + 1)%Z)
                   <$> xs)),
       self).
Proof.
  intros Hlevel. induction xs as [|i xs IH]; intros acc; cbn [for_each fmap list_fmap].
  - by rewrite app_nil_r.
  - unfold bind at 1. unfold bind at 1.
    rewrite _adjust_question_difficulty_run. unfold bind at 1.
    rewrite _generate_sample_question_run by done.
    unfold ret at 1. rewrite IH. by rewrite <- app_assoc.
Qed.

(** The whole of [get_adaptive_questions], by the level the adjustment
    proposes. *)
Lemma get_adaptive_questions_cases self topic user_id current_difficulty num_questions :
  let level := adjusted_level self current_difficulty user_id in
  ((num_questions <= 0)%Z ->
   get_adaptive_questions topic user_id current_difficulty num_questions self = (Ok [], self)) /\
  ((1 <= level <= 3)%Z ->
   get_adaptive_questions topic user_id current_difficulty num_questions self
   = (Ok ((fun i => sample_question topic level (i + 1)%Z) <$> seqZ 0 num_questions), self)) /\
  (~ (1 <= level <= 3)%Z -> (0 < num_questions)%Z ->
   get_adaptive_questions topic user_id current_difficulty num_questions self
   = (Raise (KeyError level), self)).
Proof.
  intros level. unfold get_adaptive_questions, Py.range. split; [|split].
  - intros Hn. by rewrite seqZ_nil by lia.
  - intros Hlevel. by rewrite questions_loop_at_level.
  - intros Hlevel Hn. rewrite seqZ_cons by lia. cbn [for_each].
    unfold bind at 1. unfold bind at 1. rewrite _adjust_question_difficulty_run.
    unfold bind at 1. fold level.
    by rewrite _generate_sample_question_missing.
Qed.

Lemma adjusted_level_with_history self base_difficulty user_id :
  history_of self user_id <> [] ->
  (1 <= adjusted_level self base_difficulty user_id <= 3)%Z.
Proof.
  intros Hne. rewrite adjusted_level_nonempty by done. lia.
Qed.

Lemma adjusted_level_without_history self base_difficulty user_id :
  history_of self user_id = [] ->
  adjusted_level self base_difficulty user_id = base_difficulty.
Proof.
  intros Hnil. rewrite adjusted_level_cases. by rewrite Hnil.
Qed.

(** X8. When [get_adaptive_questions] returns and when it raises. Asked
    for no question (a count of 0 or below) it returns the empty list.
    For a user with a stored score it returns a list for every base
    level, in range or not, because the proposed level is clamped to
    1..3. For a user without history and a base level outside 1..3 it
    raises [KeyError(base level)] at the first question. It never changes
    the adapter. *)
Theorem get_adaptive_questions_returns_or_raises
    (self : QuizAdapter) (topic user_id current_difficulty num_questions : Z) :
  let outcome_of_call :=
    result (get_adaptive_questions topic user_id current_difficulty num_questions) self in
  ((num_questions <= 0)%Z -> outcome_of_call = Ok []) /\
  (history_of self user_id <> [] ->
   exists qs : list Question,
     outcome_of_call = Ok qs /\
     Forall (fun q => (1 <= difficulty_level q <= 3)%Z) qs) /\
  (history_of self user_id = [] -> ~ (1 <= current_difficulty <= 3)%Z ->
   (0 < num_questions)%Z ->
   outcome_of_call = Raise (KeyError current_difficulty)).
Proof.
  intros outcome_of_call. subst outcome_of_call. unfold result.
  destruct (get_adaptive_questions_cases self topic user_id current_difficulty num_questions)
    as (Hempty & Hin & Hout).
  split; [|split].
  - intros Hn. by rewrite Hempty.
  - intros Hne. pose proof (adjusted_level_with_history self current_difficulty user_id Hne)
      as Hlevel.
    rewrite (Hin Hlevel). eexists. split; [reflexivity|].
    apply Forall_fmap, Forall_forall. intros i _. simpl.
    erewrite _generate_sample_question_level; [exact Hlevel|].
    by apply (_generate_sample_question_run topic _ (i + 1) self).
  - intros Hnil Hd Hn.
    pose proof (adjusted_level_without_history self current_difficulty user_id Hnil) as Hlevel.
    rewrite Hout by (by rewrite ?Hlevel). by rewrite Hlevel.
Qed.

Lemma question_id_inj topic level :
  (1 <= level <= 3)%Z ->
  Inj (=) (=) (fun i : Z => q_id (sample_question topic level (i + 1))).
Proof.
  intros Hlevel i j Hij. rewrite !sample_question_id in Hij by done.
  do 3 apply (inj (String.app _)) in Hij.
  apply (inj pretty) in Hij. lia.
Qed.

(** X9. The questions of a returned batch are numbered from 1 in the
    order of the list: the question at position [i] (from 0) has the id
    [q_<topic>_<i+1>], and no two questions of a batch share an id. *)
Theorem batch_ids_are_numbered
    (self : QuizAdapter) (topic user_id current_difficulty num_questions : Z)
    (qs : list Question) :
  result (get_adaptive_questions topic user_id current_difficulty num_questions) self = Ok qs ->
  NoDup (q_id <$> qs) /\
  forall (i : nat) (q : Question),
    qs !! i = Some q ->
    q_id q = ("q_" +:+ pretty topic +:+ "_" +:+ pretty (Z.of_nat i + 1)%Z)%string.
Proof.
  unfold result.
  destruct (get_adaptive_questions_cases self topic user_id current_difficulty num_questions)
    as (Hempty & Hin & Hout).
  destruct (decide (num_questions <= 0)%Z) as [Hn|Hn].
  { rewrite (Hempty Hn). intros [= <-]. split; [constructor|]. by intros i q. }
  destruct (decide (1 <= adjusted_level self current_difficulty user_id <= 3)%Z)
    as [Hlevel|Hlevel].
  - rewrite (Hin Hlevel). intros [= <-]. split.
    + rewrite <- list_fmap_compose.
      apply (@NoDup_fmap_2 _ _ _ (question_id_inj topic _ Hlevel)), NoDup_seqZ.
    + intros i q Hq. apply list_lookup_fmap_Some in Hq as (k & -> & Hk).
      apply lookup_seqZ in Hk as [-> _]. by rewrite sample_question_id.
  - rewrite (Hout Hlevel) by lia. discriminate.
Qed.

Lemma batch_ids_are_numbered_witness :
  exists qs : list Question,
    result (get_adaptive_questions 4 7 2 3) (init id (fun _ => true)) = Ok qs /\
    NoDup (q_id <$> qs).
Proof.
  eexists. split; [vm_compute; reflexivity|].
  eapply (batch_ids_are_numbered (init id (fun _ => true)) 4 7 2 3).
  vm_compute. reflexivity.
Defined.

(** X10. [_adjust_question_difficulty] never raises, for any adapter: the
    index [history[-1]] is only made on a non-empty list. For a user with
    a stored score the level it proposes is in 1..3 whatever the base
    level; for a user without, it is the base level as given, in range or
    not; and from a base level in 1..3 it is at most one step away. *)
Theorem adjust_question_difficulty_bounds
    (self : QuizAdapter) (base_difficulty user_id question_index : Z) :
  exists level : Z,
    result (_adjust_question_difficulty base_difficulty user_id question_index) self
    = Ok level /\
    (history_of self user_id <> [] -> (1 <= level <= 3)%Z) /\
    (history_of self user_id = [] -> level = base_difficulty) /\
    ((1 <= base_difficulty <= 3)%Z ->
     (1 <= level <= 3)%Z /\ (Z.abs (level - base_difficulty) <= 1)%Z).
Proof.
  unfold result. rewrite _adjust_question_difficulty_run. cbn [fst].
  eexists. split; [reflexivity|]. split; [|split].
  - apply adjusted_level_with_history.
  - apply adjusted_level_without_history.
  - intros Hbase. rewrite adjusted_level_cases.
    destruct (history_of self user_id); [lia|]. cbv zeta.
    destruct (Py.ltb 0.7 _); [lia|]. destruct (Py.ltb _ 0.3); lia.
Qed.

(** ** More on the analytics *)

Lemma get_performance_analytics_run self user_id (history : list Q) :
  user_performance_history self !! user_id = Some history ->
  history <> [] ->
  get_performance_analytics user_id self
  = (Ok {| total_attempts := length history;
           average_score := Py.round3 (Py.mean history);
           improvement_trend :=
             (if (3 <=? length history)%nat then
                if Py.ltb ((if (3 <? length history)%nat
                            then Py.mean (Py.but_last_n 3 history)
                            else default 0 (head history)) + 0.1)
                          (Py.mean (Py.last_n 3 history))
                then "improving"
                else if Py.ltb (Py.mean (Py.last_n 3 history))
                               ((if (3 <? length history)%nat
                                 then Py.mean (Py.but_last_n 3 history)
                                 else default 0 (head history)) - 0.1)
                then "declining" else "stable"
              else "stable")%string;
           strengths :=
             (if Py.ltb 0.7 (Py.mean history)
              then ["Consistent high performance"%string] else []);
           weaknesses :=
             (if Py.ltb (Py.mean history) 0.4
              then ["Need for fundamental review"%string] else []);
           recent_performance := Some (Py.last_n 5 history) |},
     self).
Proof.
  intros Hh Hne. unfold get_performance_analytics, bind at 1, get_self.
  rewrite Hh. destruct history as [|x h]; [done|].
  change (length (x :: h) =? 0)%nat with false. cbv iota.
  assert ((if (5 <=? length (x :: h))%nat then Py.last_n 5 (x :: h) else x :: h)
          = Py.last_n 5 (x :: h)) as Hrecent.
  { destruct (5 <=? length (x :: h))%nat eqn:E; [reflexivity|].
    apply Nat.leb_gt in E. symmetry. apply PyFacts.last_n_short. lia. }
  unfold bind at 1. rewrite Hrecent.
  destruct (3 <=? length (x :: h))%nat; [|reflexivity].
  unfold bind at 1. destruct (3 <? length (x :: h))%nat; reflexivity.
Qed.

Lemma get_performance_analytics_baseline self user_id :
  history_of self user_id = [] ->
  get_performance_analytics user_id self
  = (Ok {| total_attempts := 0; average_score := 0; improvement_trend := "stable";
           strengths := []; weaknesses := []; recent_performance := None |},
     self).
Proof.
  unfold history_of, get_performance_analytics, bind, get_self.
  destruct (user_performance_history self !! user_id) as [h|]; [|reflexivity].
  cbn [dict_get]. by intros ->.
Qed.

Lemma history_of_Some self user_id :
  history_of self user_id <> [] ->
  user_performance_history self !! user_id = Some (history_of self user_id).
Proof.
  unfold history_of. by destruct (user_performance_history self !! user_id).
Qed.

(** X11. [get_performance_analytics] never raises and never changes the
    adapter, for any adapter: [history[0]] is only taken from a list of
    three entries. It reports as many attempts as scores are stored; for
    a user who is unknown or whose list is empty it answers the zero
    baseline without the key [recent_performance], and otherwise
    [recent_performance] is the last five stored scores, or all of them
    when there are fewer. *)
Theorem get_performance_analytics_total (self : QuizAdapter) (user_id : Z) :
  exists a : Analytics,
    get_performance_analytics user_id self = (Ok a, self) /\
    total_attempts a = length (history_of self user_id) /\
    (history_of self user_id = [] ->
     a = {| total_attempts := 0; average_score := 0; improvement_trend := "stable";
            strengths := []; weaknesses := []; recent_performance := None |}) /\
    (history_of self user_id <> [] ->
     recent_performance a
     = Some (drop (length (history_of self user_id) - 5) (history_of self user_id))).
Proof.
  destruct (decide (history_of self user_id = [])) as [He|Hne].
  - eexists. split; [by apply get_performance_analytics_baseline|].
    rewrite He. by repeat split.
  - eexists. split.
    + by apply get_performance_analytics_run; [apply history_of_Some|].
    + split; [reflexivity|]. split; [done|]. reflexivity.
Qed.

(** X13. The strength flag and the weakness flag never come together:
    whatever analytics are returned, one of the two lists is empty. *)
Theorem strength_and_weakness_exclude (self : QuizAdapter) (user_id : Z) :
  exists a : Analytics,
    result (get_performance_analytics user_id) self = Ok a /\
    (strengths a = [] \/ weaknesses a = []).
Proof.
  unfold result.
  destruct (decide (history_of self user_id = [])) as [He|Hne].
  - rewrite (get_performance_analytics_baseline self user_id He).
    eexists. split; [reflexivity|]. by left.
  - rewrite (get_performance_analytics_run self user_id _ (history_of_Some _ _ Hne) Hne).
    eexists. split; [reflexivity|]. cbn [strengths weaknesses].
    set (h := history_of self user_id).
    destruct (PyFacts.ltb_cases 0.7 (Py.mean h)) as [[-> Hhi] | [-> Hhi]]; [|by left].
    destruct (PyFacts.ltb_cases (Py.mean h) 0.4) as [[-> Hlo] | [-> Hlo]]; [|by right].
    exfalso. lra.
Qed.

Lemma foldl_replicate (k : nat) (x a : Q) :
  foldl Qplus a (replicate k x) == a + inject_Z (Z.of_nat k) * x.
Proof.
  revert a. induction k as [|k IH]; intros a; cbn [replicate foldl].
  - change (inject_Z (Z.of_nat 0)) with 0. lra.
  - rewrite IH, Nat2Z.inj_succ, <- Z.add_1_r, inject_Z_plus.
    change (inject_Z 1) with 1. lra.
Qed.

Lemma mean_replicate (k : nat) (x : Q) : (0 < k)%nat -> Py.mean (replicate k x) == x.
Proof.
  intros Hk. unfold Py.mean, Py.sum. rewrite foldl_replicate, length_replicate.
  assert (0 < inject_Z (Z.of_nat k)) as Hpos.
  { change 0 with (inject_Z 0). rewrite <- Zlt_Qlt. lia. }
  field. intros E. rewrite E in Hpos. by apply Qlt_irrefl in Hpos.
Qed.

(** X14. A user whose stored scores are all the same, and a user with
    fewer than three stored scores, are reported as stable. *)
Theorem flat_or_short_history_is_stable
    (self : QuizAdapter) (user_id : Z) (history : list Q) :
  user_performance_history self !! user_id = Some history ->
  (length history < 3)%nat \/ (exists x : Q, history = replicate (length history) x) ->
  exists a : Analytics,
    result (get_performance_analytics user_id) self = Ok a /\
    improvement_trend a = "stable"%string.
Proof.
  intros Hh Hshape. unfold result.
  destruct (decide (history = [])) as [->|Hne].
  { rewrite get_performance_analytics_baseline by (unfold history_of; by rewrite Hh).
    by eexists. }
  rewrite (get_performance_analytics_run self user_id history Hh Hne).
  eexists. split; [reflexivity|]. cbn [improvement_trend fst].
  destruct (3 <=? length history)%nat eqn:Hlen; [|reflexivity].
  apply Nat.leb_le in Hlen. destruct Hshape as [Hshort | [x Hflat]]; [lia|].
  set (n := length history) in *.
  assert (Py.mean (Py.last_n 3 history) == x) as Hrecent.
  { rewrite Hflat. unfold Py.last_n. rewrite drop_replicate, length_replicate.
    apply mean_replicate. lia. }
  assert ((if (3 <? n)%nat then Py.mean (Py.but_last_n 3 history)
           else default 0 (head history)) == x) as Hearlier.
  { destruct (3 <? n)%nat eqn:E.
    - apply Nat.ltb_lt in E. rewrite Hflat. unfold Py.but_last_n.
      rewrite take_replicate, length_replicate. apply mean_replicate. lia.
    - rewrite Hflat. destruct n; [lia|]. reflexivity. }
  set (recent := Py.mean (Py.last_n 3 history)) in *.
  set (earlier := if (3 <? n)%nat then _ else _) in *.
  assert (Py.ltb (earlier + 0.1) recent = false) as ->.
  { apply PyFacts.ltb_ge. rewrite Hrecent, Hearlier. lra. }
  assert (Py.ltb recent (earlier - 0.1) = false) as ->.
  { apply PyFacts.ltb_ge. rewrite Hrecent, Hearlier. lra. }
  reflexivity.
Qed.

Lemma flat_or_short_history_is_stable_witness :
  exists a : Analytics,
    result (get_performance_analytics 7)
      (set_history (init id (fun _ => true)) {[ 7%Z := replicate 6 0.4 ]}) = Ok a /\
    improvement_trend a = "stable"%string.
Proof.
  apply (flat_or_short_history_is_stable
           (set_history (init id (fun _ => true)) {[ 7%Z := replicate 6 0.4 ]})
           7 (replicate 6 0.4)); [reflexivity|].
  right. by exists 0.4.
Defined.

(** ** The caller *)

Lemma fresh_adapter_has_no_history fitted_scaler fitted_model user_id :
  history_of (init fitted_scaler fitted_model) user_id = [].
Proof. unfold history_of, init. cbn. by rewrite lookup_empty. Qed.

(** X17. [AdaptiveQuizView.get] asks every question at the level the
    profile stores (level 1 without a profile), never at an adjusted one,
    since the adapter it builds has no history. With that level in 1..3
    it answers 200 with as many questions as requested (none for a count
    below 0); with a stored level outside 1..3 and at least one question
    requested it answers 500 from the [KeyError]. *)
Theorem AdaptiveQuizView_get_asks_at_profile_level
    (fitted_scaler : list Q -> list Q) (fitted_model : list Q -> bool)
    (user_id : Z) (profile : option Z) (topic num_questions : Z) :
  let current_difficulty := default 1%Z profile in
  let response :=
    AdaptiveQuizView_get fitted_scaler fitted_model user_id profile topic num_questions in
  ((1 <= current_difficulty <= 3)%Z ->
   exists qs : list Question,
     response = Http200 qs current_difficulty /\
     length qs = Z.to_nat num_questions /\
     Forall (fun q => difficulty_level q = current_difficulty) qs) /\
  (~ (1 <= current_difficulty <= 3)%Z -> (0 < num_questions)%Z ->
   response = Http500 (KeyError current_difficulty)) /\
  ((num_questions <= 0)%Z -> response = Http200 [] current_difficulty).
Proof.
  intros current_difficulty response. subst response. unfold AdaptiveQuizView_get.
  assert (match profile with Some d => d | None => 1%Z end = current_difficulty) as ->
    by by destruct profile.
  set (quiz_adapter := init fitted_scaler fitted_model).
  pose proof (adjusted_level_without_history quiz_adapter current_difficulty user_id
                (fresh_adapter_has_no_history _ _ _)) as Hlevel.
  destruct (get_adaptive_questions_cases quiz_adapter topic user_id current_difficulty
              num_questions) as (Hempty & Hin & Hout).
  cbv zeta in Hin, Hout. rewrite Hlevel in Hin, Hout. unfold result.
  split; [|split].
  - intros Hd. rewrite (Hin Hd). cbn [fst]. eexists. split; [reflexivity|].
    split; [by rewrite length_fmap, length_seqZ|].
    apply Forall_fmap, Forall_forall. intros i _. simpl.
    eapply _generate_sample_question_level.
    by apply (_generate_sample_question_run topic _ (i + 1) quiz_adapter).
  - intros Hd Hn. by rewrite (Hout Hd Hn).
  - intros Hn. by rewrite (Hempty Hn).
Qed.

(** X18. [AdaptiveQuizView.post] decides the new level from the submitted
    answer alone: the adapter it builds has no history, so the classifier
    is asked about the features [correctness, time_score, 0.5, 0.5],
    whatever the user answered before. Without a profile nothing is
    computed; with one, the level returned is the level saved, it is at
    most one step from the stored one, and it stays in 1..3 when the
    stored one is. *)
Theorem AdaptiveQuizView_post_ignores_history
    (fitted_scaler : list Q -> list Q) (fitted_model : list Q -> bool)
    (user_id : Z) (profile : option Z) (correct : bool) (time : Z) :
  let response :=
    AdaptiveQuizView_post_difficulty fitted_scaler fitted_model user_id profile correct time in
  let verdict :=
    fitted_model (fitted_scaler
      [if correct then 1 else 0; Qmax 0 (1 - inject_Z time / 300); 0.5; 0.5]) in
  (profile = None -> response = Ok (None, None)) /\
  (forall stored : Z, profile = Some stored ->
   exists new_difficulty : Z,
     response = Ok (Some new_difficulty, Some new_difficulty) /\
     (Z.abs (new_difficulty - stored) <= 1)%Z /\
     ((1 <= stored <= 3)%Z -> (1 <= new_difficulty <= 3)%Z) /\
     (verdict = true -> (stored < 3)%Z -> new_difficulty = (stored + 1)%Z) /\
     (verdict = false -> (1 < stored)%Z -> new_difficulty = (stored - 1)%Z)).
Proof.
  intros response verdict. subst response. unfold AdaptiveQuizView_post_difficulty.
  split; [by intros ->|]. intros stored ->.
  unfold result. rewrite calculate_next_difficulty_run. cbn [fst].
  assert (prediction (init fitted_scaler fitted_model) user_id
            {| is_correct := Some correct; time_taken := Some (inject_Z time);
               confidence := Some 0.5 |} = verdict) as ->.
  { unfold prediction. rewrite features_formula, fresh_adapter_has_no_history.
    reflexivity. }
  eexists. split; [reflexivity|].
  destruct verdict; cbn [andb negb];
    destruct (Z.ltb_spec stored 3); destruct (Z.ltb_spec 1 stored);
    repeat split; intros; try discriminate; lia.
Qed.

(** * The claims that depend on float values, in binary64 *)

(** ** What the laws of rounding give *)

Section Rounding.

Context {arithmetic : Binary64}.

Lemma rnd_proper (x y : Q) : x == y -> rnd x == rnd y.
Proof.
  intros H. apply Qle_antisym; apply rnd_monotone; rewrite H; apply Qle_refl.
Qed.

Lemma rnd_le_integer (x : Q) (n : Z) :
  (Z.abs n <= 9007199254740992)%Z -> x <= inject_Z n -> rnd x <= inject_Z n.
Proof.
  intros Hn Hx. rewrite <- (rnd_integer n Hn). by apply rnd_monotone.
Qed.

Lemma rnd_ge_integer (x : Q) (n : Z) :
  (Z.abs n <= 9007199254740992)%Z -> inject_Z n <= x -> inject_Z n <= rnd x.
Proof.
  intros Hn Hx. rewrite <- (rnd_integer n Hn). by apply rnd_monotone.
Qed.

Lemma rnd_of_integer (x : Q) (n : Z) :
  (Z.abs n <= 9007199254740992)%Z -> x == inject_Z n -> rnd x == inject_Z n.
Proof.
  intros Hn Hx. rewrite (rnd_proper _ _ Hx). by apply rnd_integer.
Qed.

(** The decimal literals of the source, as doubles. *)
Lemma literal_near (x : Q) :
  0 <= x <= 1 -> x - (1 # 1099511627776) <= rnd x <= x + (1 # 1099511627776).
Proof.
  intros [H0 H1]. destruct (rnd_near x) as [Hlo Hhi]; lra.
Qed.

Lemma literal_unit (x : Q) : 0 <= x <= 1 -> unit_interval (rnd x).
Proof.
  intros [H0 H1]. split.
  - by apply (rnd_ge_integer x 0).
  - by apply (rnd_le_integer x 1).
Qed.

End Rounding.

(** ** The binary64 methods, run *)

Section B64Runs.

Context {arithmetic : Binary64}.

Lemma b64_get_previous_performance_run self user_id :
  exists v, B64._get_previous_performance user_id self = (Ok v, self).
Proof.
  unfold B64._get_previous_performance, bind, get_self.
  destruct (user_performance_history self !! user_id) as [h|]; [|by eexists].
  destruct (length h =? 0)%nat; by eexists.
Qed.

Lemma b64_extract_features_run self user_id quiz_result :
  B64._extract_features user_id quiz_result self
  = (Ok (B64.features_of self user_id quiz_result), self).
Proof.
  unfold B64.features_of, returned, result, B64._extract_features, bind.
  destruct (b64_get_previous_performance_run self user_id) as [v ->]. reflexivity.
Qed.

Lemma b64_calculate_performance_score_run quiz_result (s : QuizAdapter) :
  B64._calculate_performance_score quiz_result s
  = (Ok (B64.performance_score_of quiz_result), s).
Proof. reflexivity. Qed.

Lemma b64_update_user_history_run self user_id quiz_result new_difficulty :
  B64._update_user_history user_id quiz_result new_difficulty self
  = (Ok tt, logged self user_id (B64.performance_score_of quiz_result)).
Proof.
  unfold B64._update_user_history, logged, history_of, bind, get_self, put_self, ret,
    dict_index.
  set (x := B64.performance_score_of quiz_result).
  destruct (user_performance_history self !! user_id) as [h|] eqn:Hh;
    rewrite b64_calculate_performance_score_run; fold x; cbn [set_history
      user_performance_history scaler difficulty_model difficulty_weights dict_get].
  - rewrite Hh. unfold ret. cbn [set_history user_performance_history].
    rewrite !lookup_insert_eq.
    destruct (20 <? length (h ++ [x]))%nat eqn:E; cbn.
    + by rewrite insert_insert_eq.
    + apply Nat.ltb_ge in E. by rewrite PyFacts.last_n_short.
  - rewrite !lookup_insert_eq. unfold ret. cbn [set_history user_performance_history].
    rewrite !lookup_insert_eq. cbn.
    by rewrite insert_insert_eq.
Qed.

Lemma b64_calculate_next_difficulty_run self user_id current_difficulty quiz_result :
  B64.calculate_next_difficulty user_id current_difficulty quiz_result self
  = (Ok (if B64.prediction self user_id quiz_result && (current_difficulty <? 3)%Z
         then (current_difficulty + 1)%Z
         else if negb (B64.prediction self user_id quiz_result) && (1 <? current_difficulty)%Z
         then (current_difficulty - 1)%Z
         else current_difficulty),
     logged self user_id (B64.performance_score_of quiz_result)).
Proof.
  unfold B64.calculate_next_difficulty, bind at 1.
  rewrite b64_extract_features_run. unfold bind, get_self.
  by rewrite b64_update_user_history_run.
Qed.

Lemma b64_read_only_adjust base_difficulty user_id question_index :
  read_only (B64._adjust_question_difficulty base_difficulty user_id question_index).
Proof. unfold B64._adjust_question_difficulty. frame. Qed.

Lemma b64_read_only_questions topic user_id current_difficulty num_questions :
  read_only (B64.get_adaptive_questions topic user_id current_difficulty num_questions).
Proof.
  unfold B64.get_adaptive_questions. apply read_only_for_each. intros i acc.
  apply read_only_bind; [apply b64_read_only_adjust | intros d].
  apply read_only_bind; [apply read_only_generate | intros q].
  apply read_only_ret.
Qed.

Lemma b64_read_only_evaluate `{EqDecision A} (user_answer correct_answer : A) time conf :
  read_only (B64.evaluate_answer user_answer correct_answer time conf).
Proof. unfold B64.evaluate_answer, B64._generate_feedback. frame. Qed.

Lemma b64_read_only_analytics user_id : read_only (B64.get_performance_analytics user_id).
Proof. unfold B64.get_performance_analytics. frame. Qed.

Lemma b64_performance_score_formula quiz_result :
  B64.performance_score_of quiz_result
  = clamp01
      (rnd (rnd (correctness_of quiz_result
                 - Qmax 0 (rnd (rnd (time_of quiz_result / 300) * rnd 0.3)))
            + rnd (confidence_of quiz_result * rnd 0.2))).
Proof.
  unfold clamp01. rewrite <- !PyFacts.max_Qmax, <- PyFacts.min_Qmin. reflexivity.
Qed.

Lemma b64_performance_score_unit quiz_result :
  unit_interval (B64.performance_score_of quiz_result).
Proof. apply PyFacts.clamp_unit. Qed.

Lemma b64_reachable_history_unit (self : QuizAdapter) :
  B64.reachable self -> forall user_id, Forall unit_interval (history_of self user_id).
Proof.
  induction 1 as [sc md | self u d qr _ IH | self t u d n _ IH
                 | self ua ca t c _ IH | self u _ IH]; intros user_id.
  - unfold history_of, init. cbn. rewrite lookup_empty. constructor.
  - unfold exec. rewrite b64_calculate_next_difficulty_run. cbn [snd].
    rewrite history_of_logged. destruct (decide (u = user_id)); [|apply IH].
    apply PyFacts.last_n_Forall, Forall_app. split; [apply IH|].
    constructor; [apply b64_performance_score_unit | constructor].
  - rewrite b64_read_only_questions. apply IH.
  - rewrite b64_read_only_evaluate. apply IH.
  - rewrite b64_read_only_analytics. apply IH.
Qed.

End B64Runs.

(** ** The performance score, in binary64 *)

(** C6. The score [_calculate_performance_score] returns, which is the one
    [calculate_next_difficulty] pushes at the end of the user's history,
    is [clamp01(correctness - time_penalty + confidence_bonus)] with
    [time_penalty = max(0, time_taken/300 * 0.3)] and
    [confidence_bonus = confidence * 0.2], each operation rounded to a
    double as Python performs it; it lies in the unit interval, and so
    does every entry of every history of an adapter a process can hold,
    before and after the call. *)
Theorem stored_score_is_clamped_formula `{Binary64}
    (self : QuizAdapter) (user_id current_difficulty : Z) (quiz_result : QuizResult) :
  B64.reachable self ->
  let correctness := correctness_of quiz_result in
  let time_penalty := Qmax 0 (rnd (rnd (time_of quiz_result / 300) * rnd 0.3)) in
  let confidence_bonus := rnd (confidence_of quiz_result * rnd 0.2) in
  let pushed := clamp01 (rnd (rnd (correctness - time_penalty) + confidence_bonus)) in
  result (B64._calculate_performance_score quiz_result) self = Ok pushed /\
  last (history_of
          (exec (B64.calculate_next_difficulty user_id current_difficulty quiz_result) self)
          user_id) = Some pushed /\
  unit_interval pushed /\
  (forall (u : Z) (history : list Q),
     user_performance_history self !! u = Some history ->
     Forall unit_interval history) /\
  (forall (u : Z) (history : list Q),
     user_performance_history
       (exec (B64.calculate_next_difficulty user_id current_difficulty quiz_result) self) !! u
     = Some history ->
     Forall unit_interval history).
Proof.
  intros Hreach correctness time_penalty confidence_bonus pushed.
  subst pushed confidence_bonus time_penalty correctness.
  rewrite <- b64_performance_score_formula.
  assert (forall s, B64.reachable s -> forall u h,
            user_performance_history s !! u = Some h -> Forall unit_interval h) as Hall.
  { intros s Hs u h Hu. pose proof (b64_reachable_history_unit s Hs u) as Hh.
    unfold history_of in Hh. by rewrite Hu in Hh. }
  split; [reflexivity|]. split; [|split; [|split]].
  - unfold exec. rewrite b64_calculate_next_difficulty_run. cbn [snd].
    rewrite history_of_logged. destruct (decide (user_id = user_id)); [|done].
    apply last_of_window.
  - apply b64_performance_score_unit.
  - by apply Hall.
  - apply Hall. by constructor.
Qed.

Lemma stored_score_is_clamped_formula_witness :
  exists pushed : Q,
    last (history_of
            (exec (B64.calculate_next_difficulty 7 2
                     {| is_correct := Some true; time_taken := Some 400;
                        confidence := Some 0.5 |})
                  (init id (fun _ => true)))
            7) = Some pushed /\
    unit_interval pushed.
Proof.
  eexists.
  destruct (stored_score_is_clamped_formula (init id (fun _ => true)) 7 2
              {| is_correct := Some true; time_taken := Some 400; confidence := Some 0.5 |}
              (B64.reach_init id (fun _ => true)))
    as (_ & Hlast & Hunit & _).
  split; [exact Hlast | exact Hunit].
Defined.

(** ** Out-of-range inputs, in binary64 *)

Section Penalty.

Context {arithmetic : Binary64}.



End Penalty.



(** ** Analytics, in binary64 *)

Section B64Analytics.

Context {arithmetic : Binary64}.

Lemma b64_analytics_flags self user_id (history : list Q) :
  user_performance_history self !! user_id = Some history ->
  history <> [] ->
  exists a : Analytics,
    result (B64.get_performance_analytics user_id) self = Ok a /\
    total_attempts a = length history /\
    strengths a
    = (if Py.ltb (rnd 0.7) (np_mean history)
       then ["Consistent high performance"%string] else []) /\
    weaknesses a
    = (if Py.ltb (np_mean history) (rnd 0.4)
       then ["Need for fundamental review"%string] else []).
Proof.
  intros Hh Hne. unfold result, B64.get_performance_analytics, bind at 1, get_self.
  rewrite Hh. destruct history as [|x h]; [done|].
  change (length (x :: h) =? 0)%nat with false. cbv iota.
  unfold bind at 1.
  destruct (3 <=? length (x :: h))%nat.
  - unfold bind at 1. destruct (3 <? length (x :: h))%nat; cbn; eexists; eauto.
  - cbn. eexists; eauto.
Qed.

End B64Analytics.

(** C7, as the code has it. For a user with a non-empty history the
    analytics contain the strength flag exactly when the average of all
    history entries, as [np.mean] returns it, is strictly above the
    double 0.7, and the weakness flag exactly when it is below the double
    0.4. *)
Theorem analytics_flags_by_computed_average `{Binary64}
    (self : QuizAdapter) (user_id : Z) (history : list Q) :
  user_performance_history self !! user_id = Some history ->
  history <> [] ->
  exists a : Analytics,
    result (B64.get_performance_analytics user_id) self = Ok a /\
    ("Consistent high performance"%string ∈ strengths a <-> rnd 0.7 < np_mean history) /\
    ("Need for fundamental review"%string ∈ weaknesses a <-> np_mean history < rnd 0.4) /\
    (strengths a = ["Consistent high performance"%string] \/ strengths a = []) /\
    (weaknesses a = ["Need for fundamental review"%string] \/ weaknesses a = []).
Proof.
  intros Hh Hne.
  destruct (b64_analytics_flags self user_id history Hh Hne) as (a & Hrun & _ & Hs & Hw).
  exists a. split; [exact Hrun|]. rewrite Hs, Hw.
  destruct (PyFacts.ltb_cases (rnd 0.7) (np_mean history)) as [[-> Hhi] | [-> Hhi]];
    destruct (PyFacts.ltb_cases (np_mean history) (rnd 0.4)) as [[-> Hlo] | [-> Hlo]];
    (split; [|split; [|split]]); try (by left); try (by right);
    split; intros Hflag; try done; try (by apply list_elem_of_here);
    try (by apply not_elem_of_nil in Hflag); exfalso; lra.
Qed.

Lemma analytics_flags_by_computed_average_witness :
  exists a : Analytics,
    result (B64.get_performance_analytics 7)
      (set_history (init id (fun _ => true)) {[ 7%Z := [0.9; 0.9; 0.9] ]}) = Ok a /\
    "Consistent high performance"%string ∈ strengths a.
Proof.
  destruct (analytics_flags_by_computed_average
              (set_history (init id (fun _ => true)) {[ 7%Z := [0.9; 0.9; 0.9] ]})
              7 [0.9; 0.9; 0.9])
    as (a & Hrun & Hstrong & _).
  - reflexivity.
  - discriminate.
  - exists a. split; [exact Hrun|]. apply Hstrong. by vm_compute.
Defined.

(** ** The batch of questions, in binary64 *)

Section B64Batch.

Context {arithmetic : Binary64}.

Lemma b64_adjust_question_difficulty_run self base_difficulty user_id question_index :
  B64._adjust_question_difficulty base_difficulty user_id question_index self
  = (Ok (B64.adjusted_level self base_difficulty user_id), self).
Proof.
  unfold B64.adjusted_level, returned, result, B64._adjust_question_difficulty, bind,
    get_self.
  destruct (user_performance_history self !! user_id) as [h|]; [|reflexivity].
  destruct (length h =? 0)%nat eqn:Hlen; [reflexivity|].
  destruct (3 <=? length h)%nat; [reflexivity|].
  unfold list_index_last. destruct (last h) as [x|] eqn:Hlast; [reflexivity|].
  apply last_None in Hlast. by subst h.
Qed.

Lemma b64_adjusted_level_cases self base_difficulty user_id :
  B64.adjusted_level self base_difficulty user_id
  = match history_of self user_id with
    | [] => base_difficulty
    | _ :: _ =>
        let trend := B64.recent_trend (history_of self user_id) in
        Z.max 1 (Z.min 3
          (if Py.ltb (rnd 0.7) trend then Z.min 3 (base_difficulty + 1)
           else if Py.ltb trend (rnd 0.3) then Z.max 1 (base_difficulty - 1)
           else base_difficulty))
    end.
Proof.
  unfold B64.adjusted_level, returned, result, B64._adjust_question_difficulty, bind,
    get_self, history_of, B64.recent_trend.
  destruct (user_performance_history self !! user_id) as [[|x h]|]; try reflexivity.
  cbn [dict_get]. change (length (x :: h) =? 0)%nat with false. cbv iota.
  destruct (3 <=? length (x :: h))%nat; [reflexivity|].
  unfold list_index_last. destruct (last (x :: h)) as [y|] eqn:Hlast; [reflexivity|].
  by apply last_None in Hlast.
Qed.

Lemma b64_adjusted_level_nonempty self base_difficulty user_id :
  history_of self user_id <> [] ->
  B64.adjusted_level self base_difficulty user_id
  = Z.max 1 (Z.min 3
      (if Py.ltb (rnd 0.7) (B64.recent_trend (history_of self user_id))
       then Z.min 3 (base_difficulty + 1)
       else if Py.ltb (B64.recent_trend (history_of self user_id)) (rnd 0.3)
       then Z.max 1 (base_difficulty - 1)
       else base_difficulty)).
Proof.
  intros Hne. rewrite b64_adjusted_level_cases.
  by destruct (history_of self user_id).
Qed.

Lemma b64_questions_at_level topic user_id current_difficulty (xs : list Z) self :
  (1 <= B64.adjusted_level self current_difficulty user_id <= 3)%Z ->
  forall acc : list Question,
    for_each xs
      (fun (i : Z) (questions : list Question) =>
         question_difficulty <- B64._adjust_question_difficulty current_difficulty user_id i ;;
         question <- _generate_sample_question topic question_difficulty (i + 1)%Z ;;
         ret (questions ++ [question])) acc self
    = (Ok (acc ++ ((fun i => sample_question topic
                               (B64.adjusted_level self current_difficulty user_id) (i + 1)%Z)
                   <$> xs)),
       self).
Proof.
  intros Hlevel. induction xs as [|i xs IH]; intros acc; cbn [for_each fmap list_fmap].
  - by rewrite app_nil_r.
  - unfold bind at 1. unfold bind at 1.
    rewrite b64_adjust_question_difficulty_run. unfold bind at 1.
    rewrite _generate_sample_question_run by done.
    unfold ret at 1. rewrite IH. by rewrite <- app_assoc.
Qed.

Lemma b64_batch_at_level topic user_id current_difficulty num_questions self (level : Z) :
  B64.adjusted_level self current_difficulty user_id = level ->
  (1 <= level <= 3)%Z ->
  exists qs : list Question,
    result (B64.get_adaptive_questions topic user_id current_difficulty num_questions) self
    = Ok qs /\
    length qs = Z.to_nat num_questions /\
    Forall (fun q => difficulty_level q = level) qs.
Proof.
  intros Hlevel Hrange. unfold result, B64.get_adaptive_questions, Py.range.
  rewrite b64_questions_at_level by (by rewrite Hlevel). cbn [fst app].
  eexists. split; [reflexivity|]. split; [by rewrite length_fmap, length_seqZ|].
  apply Forall_fmap, Forall_forall. intros i _. simpl. rewrite Hlevel.
  eapply _generate_sample_question_level.
  by apply (_generate_sample_question_run topic level (i + 1) self).
Qed.

(** Three stored scores equal to the double 0.9 have a computed mean
    above the double 0.7. *)
Lemma b64_trend_of_three_high :
  rnd 0.7 < B64.recent_trend [rnd 0.9; rnd 0.9; rnd 0.9].
Proof.
  change (B64.recent_trend [rnd 0.9; rnd 0.9; rnd 0.9])
    with (np_mean [rnd 0.9; rnd 0.9; rnd 0.9]).
  pose proof (literal_near 0.9 ltac:(lra)) as [H9lo H9hi].
  pose proof (literal_near 0.7 ltac:(lra)) as [H7lo H7hi].
  pose proof (literal_unit 0.9 ltac:(lra)) as Hunit.
  destruct (np_mean_near [rnd 0.9; rnd 0.9; rnd 0.9]) as [Hlo _];
    [discriminate | simpl; lia
    | repeat (apply Forall_cons_2; [exact Hunit|]); apply Forall_nil_2 |].
  assert (Py.mean [rnd 0.9; rnd 0.9; rnd 0.9] == rnd 0.9) as Hmean.
  { unfold Py.mean, Py.sum. cbn. unfold Qdiv.
    change (/ inject_Z (Z.of_nat 3)) with (1 # 3). lra. }
  rewrite Hmean in Hlo. lra.
Qed.

End B64Batch.

(** C4, as the code has it. From a base level in {1,2,3} the adjustment
    proposes base+1 (at most 3) when the recent trend exceeds the double
    0.7, base-1 (at least 1) when it is below the double 0.3, and the
    base otherwise; the trend is the mean, as [np.mean] returns it, of
    the last three entries of the user's history, or the most recent
    entry alone when the history has one or two entries. A user without
    history keeps the base level, for each question of a batch; and with
    history 0.9, 0.9, 0.9 and base level 2 a batch of three questions is
    proposed at level 3 throughout. *)
Theorem adjust_question_difficulty_by_computed_trend `{Binary64}
    (self : QuizAdapter) (user_id question_index base_difficulty : Z) :
  (1 <= base_difficulty <= 3)%Z ->
  let history := history_of self user_id in
  let trend := B64.recent_trend history in
  let proposal :=
    result (B64._adjust_question_difficulty base_difficulty user_id question_index) self in
  (history = [] -> proposal = Ok base_difficulty) /\
  (history <> [] -> rnd 0.7 < trend -> proposal = Ok (Z.min 3 (base_difficulty + 1))) /\
  (history <> [] -> trend < rnd 0.3 -> proposal = Ok (Z.max 1 (base_difficulty - 1))) /\
  (history <> [] -> rnd 0.3 <= trend <= rnd 0.7 -> proposal = Ok base_difficulty) /\
  ((3 <= length history)%nat -> trend = np_mean (Py.last_n 3 history)) /\
  ((0 < length history < 3)%nat -> last history = Some trend) /\
  (history = [] ->
   forall topic num_questions : Z,
   exists qs : list Question,
     result (B64.get_adaptive_questions topic user_id base_difficulty num_questions) self
     = Ok qs /\
     Forall (fun q => difficulty_level q = base_difficulty) qs) /\
  (forall topic : Z,
   exists qs : list Question,
     result (B64.get_adaptive_questions topic 7 2 3)
       (set_history self {[ 7%Z := [rnd 0.9; rnd 0.9; rnd 0.9] ]}) = Ok qs /\
     difficulty_level <$> qs = [3; 3; 3]%Z).
Proof.
  intros Hbase history trend proposal. subst proposal. unfold result.
  rewrite b64_adjust_question_difficulty_run. cbn [fst].
  split; [|split; [|split; [|split; [|split; [|split; [|split]]]]]].
  - intros Hnil. rewrite b64_adjusted_level_cases. fold history. by rewrite Hnil.
  - intros Hne Htrend. rewrite b64_adjusted_level_nonempty by done. fold history trend.
    rewrite (proj2 (PyFacts.ltb_lt _ _) Htrend). f_equal. lia.
  - intros Hne Htrend. rewrite b64_adjusted_level_nonempty by done. fold history trend.
    assert (Py.ltb (rnd 0.7) trend = false) as ->.
    { apply PyFacts.ltb_ge. apply Qlt_le_weak, Qlt_le_trans with (rnd 0.3); [done|].
      apply rnd_monotone. lra. }
    rewrite (proj2 (PyFacts.ltb_lt _ _) Htrend). f_equal. lia.
  - intros Hne [Hlo Hhi]. rewrite b64_adjusted_level_nonempty by done. fold history trend.
    assert (Py.ltb (rnd 0.7) trend = false) as -> by (by apply PyFacts.ltb_ge).
    assert (Py.ltb trend (rnd 0.3) = false) as -> by (by apply PyFacts.ltb_ge).
    f_equal. lia.
  - intros Hlen. subst trend. unfold B64.recent_trend.
    by rewrite (proj2 (Nat.leb_le _ _) Hlen).
  - intros [Hpos Hlen]. subst trend. unfold B64.recent_trend.
    assert ((3 <=? length history)%nat = false) as -> by (apply Nat.leb_gt; lia).
    destruct (last history) as [x|] eqn:Hlast; [reflexivity|].
    apply last_None in Hlast. rewrite Hlast in Hpos. simpl in Hpos. lia.
  - intros Hnil topic num_questions.
    destruct (b64_batch_at_level topic user_id base_difficulty num_questions self
                base_difficulty) as (qs & Hrun & _ & Hall); [|done|by exists qs].
    rewrite b64_adjusted_level_cases. fold history. by rewrite Hnil.
  - intros topic.
    destruct (b64_batch_at_level topic 7 2 3
                (set_history self {[ 7%Z := [rnd 0.9; rnd 0.9; rnd 0.9] ]}) 3)
      as (qs & Hrun & Hlen & Hall); [|lia|].
    + rewrite b64_adjusted_level_nonempty;
        unfold history_of; cbn; rewrite lookup_singleton_eq; cbn [dict_get]; [|done].
      by rewrite (proj2 (PyFacts.ltb_lt _ _) b64_trend_of_three_high).
    + exists qs. split; [exact Hrun|].
      destruct qs as [|q1 [|q2 [|q3 [|q4 qs]]]]; try (simpl in Hlen; lia).
      apply Forall_cons in Hall as [H1 Hall]. apply Forall_cons in Hall as [H2 Hall].
      apply Forall_cons in Hall as [H3 _]. cbn. by rewrite H1, H2, H3.
Qed.

Lemma adjust_question_difficulty_by_computed_trend_witness :
  result (B64._adjust_question_difficulty 2 7 0) (init id (fun _ => true)) = Ok 2%Z.
Proof.
  destruct (adjust_question_difficulty_by_computed_trend (init id (fun _ => true)) 7 0 2)
    as (Hnil & _); [lia|].
  apply Hnil. reflexivity.
Defined.

(** ** Scoring an answer, in binary64 *)

Lemma int_between (x : Q) (k : Z) :
  (0 <= k)%Z -> inject_Z k <= x -> x < inject_Z k + 1 -> Py.int x = k.
Proof.
  intros Hk Hlo Hhi.
  assert (0 <= x) as Hx.
  { apply Qle_trans with (inject_Z k); [|done].
    change 0 with (inject_Z 0). by rewrite <- Zle_Qle. }
  rewrite (PyFacts.int_floor x Hx).
  assert (k <= Qfloor x)%Z as H1.
  { rewrite <- (Qfloor_Z k). by apply Qfloor_resp_le. }
  assert (Qfloor x < k + 1)%Z as H2.
  { rewrite Zlt_Qlt, inject_Z_plus. change (inject_Z 1) with 1.
    apply Qle_lt_trans with x; [apply Qfloor_le | done]. }
  lia.
Qed.

Section B64Scoring.

Context {arithmetic : Binary64}.

Lemma b64_time_bonus_bounds (t : Q) :
  0 <= t -> 0 <= Qmax 0 (rnd (rnd (rnd (300 - t) / 300) * 5)) <= 5.
Proof.
  intros Ht. rewrite <- PyFacts.max_Qmax. split; [apply PyFacts.max_lower|].
  apply PyFacts.max_upper; [lra|].
  assert (rnd (300 - t) <= 300) as H1
    by (apply (rnd_le_integer _ 300); [lia | unfold inject_Z; lra]).
  assert (rnd (rnd (300 - t) / 300) <= 1) as H2
    by (apply (rnd_le_integer _ 1); [lia | unfold inject_Z; cap_lra]).
  apply (rnd_le_integer _ 5); [lia | unfold inject_Z; lra].
Qed.

Lemma b64_total_bounds (correct : bool) (t c : Q) :
  0 <= t -> unit_interval c ->
  0 <= rnd (rnd ((if correct then 10 else 0)
                 + Qmax 0 (rnd (rnd (rnd (300 - t) / 300) * 5)))
            + (if correct then rnd (c * 2) else 0)) <= 17.
Proof.
  intros Ht [Hc0 Hc1].
  destruct (b64_time_bonus_bounds t Ht) as [Hb0 Hb5].
  set (bonus := Qmax 0 (rnd (rnd (rnd (300 - t) / 300) * 5))) in *.
  assert (0 <= rnd (c * 2) <= 2) as [Hf0 Hf2].
  { split; [apply (rnd_ge_integer _ 0) | apply (rnd_le_integer _ 2)];
      try lia; unfold inject_Z; lra. }
  assert (0 <= rnd ((if correct then 10 else 0) + bonus) <= 15) as [Hs0 Hs15].
  { split; [apply (rnd_ge_integer _ 0) | apply (rnd_le_integer _ 15)];
      try lia; unfold inject_Z; destruct correct; lra. }
  split; [apply (rnd_ge_integer _ 0) | apply (rnd_le_integer _ 17)];
    try lia; unfold inject_Z; destruct correct; lra.
Qed.

(** The total of the scenario: a right answer in 30 seconds with the
    double 0.9 as confidence adds up to 16.3, give or take the rounding. *)
Lemma b64_scenario_total :
  16 <= rnd (rnd (10 + Py.max 0 (rnd (rnd (rnd (300 - 30) / 300) * 5)))
             + rnd (rnd 0.9 * 2)) < 16 + 1.
Proof.
  assert (rnd (300 - 30) == 270) as Hx.
  { apply (rnd_of_integer _ 270); [lia | by vm_compute]. }
  assert (rnd (300 - 30) / 300 == 9 # 10) as Hq.
  { rewrite Hx. by vm_compute. }
  pose proof (rnd_proper _ _ Hq) as Hq'.
  destruct (rnd_near (9 # 10)) as [Hq1 Hq2]; [lra|].
  rewrite <- Hq' in Hq1, Hq2.
  set (q := rnd (rnd (300 - 30) / 300)) in *.
  destruct (rnd_near (q * 5)) as [Hy1 Hy2]; [lra|].
  set (y := rnd (q * 5)) in *.
  assert (Py.max 0 y = y) as ->.
  { unfold Py.max. destruct (PyFacts.ltb_cases 0 y) as [[-> _] | [-> Hy]];
      [reflexivity | exfalso; lra]. }
  destruct (rnd_near 0.9) as [Hc1 Hc2]; [lra|].
  set (c := rnd 0.9) in *.
  destruct (rnd_near (c * 2)) as [Hb1 Hb2]; [lra|].
  set (b := rnd (c * 2)) in *.
  destruct (rnd_near (10 + y)) as [Hs1 Hs2]; [lra|].
  set (s := rnd (10 + y)) in *.
  destruct (rnd_near (s + b)) as [Ht1 Ht2]; [lra|].
  lra.
Qed.

End B64Scoring.

(** C5. For a time that is not negative and a confidence in the unit
    interval, [evaluate_answer] returns [is_correct] true exactly when the
    two answers are equal, and as score the integer truncation of
    [base_score + time_bonus + confidence_bonus], with base score 10 for a
    correct answer and 0 otherwise, time bonus
    [max(0, (300 - time_taken)/300 * 5)] and confidence bonus
    [confidence * 2] for a correct answer only, each float operation
    rounded to a double as Python performs it. The score is the integer
    with [score <= total < score + 1] and lies between 0 and 17. Answer A
    to a question whose answer is A, in 30 seconds with the double 0.9 as
    confidence, scores 16 with the feedback of the quick correct
    answer. *)
Theorem evaluate_answer_score_in_binary64 `{Binary64} `{EqDecision A}
    (self : QuizAdapter) (user_answer correct_answer : A) (time conf : Q) :
  0 <= time -> unit_interval conf ->
  let correct := bool_decide (user_answer = correct_answer) in
  let base_score := if correct then 10 else 0 in
  let time_bonus := Qmax 0 (rnd (rnd (rnd (300 - time) / 300) * 5)) in
  let confidence_bonus := if correct then rnd (conf * 2) else 0 in
  let total := rnd (rnd (base_score + time_bonus) + confidence_bonus) in
  (exists ev : Evaluation,
     result (B64.evaluate_answer user_answer correct_answer time conf) self = Ok ev /\
     ev_is_correct ev = correct /\
     score ev = Py.int total /\
     inject_Z (score ev) <= total < inject_Z (score ev) + 1 /\
     (0 <= score ev <= 17)%Z) /\
  (exists ev : Evaluation,
     result (B64.evaluate_answer "A"%string "A"%string 30 (rnd 0.9)) self = Ok ev /\
     ev_is_correct ev = true /\
     score ev = 16%Z /\
     feedback ev = "Excellent! You answered quickly and correctly."%string).
Proof.
  intros Htime Hconf correct base_score time_bonus confidence_bonus total.
  split.
  - eexists. split; [reflexivity|]. cbn [ev_is_correct score].
    split; [reflexivity|].
    assert (Py.max 0 (rnd (rnd (rnd (300 - time) / 300) * 5)) = time_bonus) as ->
      by apply PyFacts.max_Qmax.
    fold correct base_score confidence_bonus total.
    destruct (b64_total_bounds correct time conf Htime Hconf) as [Ht0 Ht17].
    fold time_bonus in Ht0, Ht17. fold base_score confidence_bonus in Ht0, Ht17.
    fold total in Ht0, Ht17.
    split; [reflexivity|]. split; [split|].
    + rewrite (PyFacts.int_floor total Ht0). apply Qfloor_le.
    + rewrite (PyFacts.int_floor total Ht0).
      rewrite <- (inject_Z_plus _ 1). apply Qlt_floor.
    + apply (PyFacts.int_bounds total 0 17); [lia | exact Ht0 | exact Ht17].
  - eexists. split; [reflexivity|]. cbn [ev_is_correct score feedback].
    split; [reflexivity|]. split; [|reflexivity].
    destruct b64_scenario_total as [Hlo Hhi].
    by apply int_between.
Qed.

Lemma evaluate_answer_score_in_binary64_witness :
  exists ev : Evaluation,
    result (B64.evaluate_answer "B"%string "A"%string 400 1) (init id (fun _ => true)) = Ok ev /\
    (0 <= score ev <= 17)%Z.
Proof.
  destruct (evaluate_answer_score_in_binary64 (init id (fun _ => true))
              "B"%string "A"%string 400 1)
    as [(ev & Hrun & _ & _ & _ & Hrange) _].
  - lra.
  - unfold unit_interval. lra.
  - exists ev. split; [exact Hrun | exact Hrange].
Defined.

(** ** The size and the level of a batch *)

Section B64Loop.

Context {arithmetic : Binary64}.

(** The loop of [get_adaptive_questions], from any list of indices and
    any questions gathered so far, whether it ends or raises. *)
Lemma b64_questions_loop topic user_id current_difficulty (xs : list Z) self :
  forall acc qs : list Question,
    result
      (for_each xs
         (fun (i : Z) (questions : list Question) =>
            question_difficulty <-
              B64._adjust_question_difficulty current_difficulty user_id i ;;
            question <- _generate_sample_question topic question_difficulty (i + 1)%Z ;;
            ret (questions ++ [question])) acc) self = Ok qs ->
    exists new : list Question,
      qs = acc ++ new /\ length new = length xs /\
      Forall (fun q => difficulty_level q
                       = B64.adjusted_level self current_difficulty user_id) new.
Proof.
  induction xs as [|i xs IH]; intros acc qs; unfold result; cbn [for_each].
  - intros [= <-]. exists []. by rewrite app_nil_r.
  - unfold bind at 1. unfold bind at 1.
    rewrite b64_adjust_question_difficulty_run. unfold bind at 1.
    pose proof (read_only_generate topic (B64.adjusted_level self current_difficulty user_id)
                  (i + 1) self) as Hframe. unfold exec in Hframe.
    destruct (_generate_sample_question topic _ (i + 1) self) as [[q|e] self'] eqn:Hgen;
      simpl in Hframe; subst self'; [|discriminate].
    unfold ret at 1. intros Hrest.
    destruct (IH (acc ++ [q]) qs Hrest) as (new & -> & Hlen & Hall).
    exists (q :: new). rewrite <- app_assoc. split; [reflexivity|].
    split; [simpl; lia|]. constructor; [|exact Hall].
    eapply _generate_sample_question_level, Hgen.
Qed.

End B64Loop.

(** C10, refuted as stated. Asked for minus two questions the adapter
    returns the empty list, which has no entry, not minus two. No float
    operation is reached on the way, so the arithmetic does not matter. *)
Lemma negative_count_gives_no_question :
  exists qs : list Question,
    result (B64.get_adaptive_questions 4 7 2 (-2)) (init id (fun _ => true)) = Ok qs /\
    Z.of_nat (length qs) <> (-2)%Z.
Proof.
  exists []. split; [reflexivity | discriminate].
Qed.

(** C10, as the code has it. A call of [get_adaptive_questions] leaves the
    adapter unchanged; the list it returns has exactly [num_questions]
    entries when that count is not negative and none when it is, all of
    them with the one difficulty level the adjustment proposes, which
    does not depend on the question index; and it does return a list when
    the base level is one of 1, 2, 3. *)
Theorem batch_size_and_level `{Binary64}
    (self : QuizAdapter) (topic user_id current_difficulty num_questions : Z) :
  exec (B64.get_adaptive_questions topic user_id current_difficulty num_questions) self
  = self /\
  (exists level : Z,
     (forall i : Z,
        result (B64._adjust_question_difficulty current_difficulty user_id i) self
        = Ok level) /\
     forall qs : list Question,
       result (B64.get_adaptive_questions topic user_id current_difficulty num_questions) self
       = Ok qs ->
       Z.of_nat (length qs) = Z.max 0 num_questions /\
       ((0 <= num_questions)%Z -> Z.of_nat (length qs) = num_questions) /\
       forall q, q ∈ qs -> difficulty_level q = level) /\
  ((1 <= current_difficulty <= 3)%Z ->
   exists qs : list Question,
     result (B64.get_adaptive_questions topic user_id current_difficulty num_questions) self
     = Ok qs).
Proof.
  split; [apply b64_read_only_questions|]. split.
  - exists (B64.adjusted_level self current_difficulty user_id). split.
    + intros i. unfold result. by rewrite b64_adjust_question_difficulty_run.
    + intros qs Hqs. unfold B64.get_adaptive_questions in Hqs.
      apply b64_questions_loop in Hqs as (new & -> & Hlen & Hall). cbn [app].
      rewrite Hlen. unfold Py.range. rewrite length_seqZ.
      split; [lia|]. split; [lia|].
      intros q Hq. by apply (proj1 (Forall_forall _ _) Hall).
  - intros Hd.
    assert (1 <= B64.adjusted_level self current_difficulty user_id <= 3)%Z as Hlevel.
    { rewrite b64_adjusted_level_cases.
      destruct (history_of self user_id); [done|]. cbv zeta. lia. }
    destruct (b64_batch_at_level topic user_id current_difficulty num_questions self _
                eq_refl Hlevel) as (qs & Hrun & _).
    by exists qs.
Qed.

(** ** An answer, then a batch, in binary64 *)

(** X16. The first answer of a user decides the next batch on its own.
    For a user without history and a base level in 1..3, after one call
    of [calculate_next_difficulty] the batch is proposed one level up
    (at most 3) when the score stored for that answer exceeds the double
    0.7, one level down (at least 1) when it is below the double 0.3, and
    at the base level otherwise. *)
Theorem first_answer_moves_next_batch `{Binary64}
    (self : QuizAdapter) (user_id current_difficulty : Z) (quiz_result : QuizResult)
    (topic base_difficulty num_questions : Z) :
  history_of self user_id = [] ->
  (1 <= base_difficulty <= 3)%Z ->
  let after :=
    exec (B64.calculate_next_difficulty user_id current_difficulty quiz_result) self in
  let x := B64.performance_score_of quiz_result in
  history_of after user_id = [x] /\
  exists qs : list Question,
    result (B64.get_adaptive_questions topic user_id base_difficulty num_questions) after
    = Ok qs /\
    length qs = Z.to_nat num_questions /\
    (rnd 0.7 < x ->
     Forall (fun q => difficulty_level q = Z.min 3 (base_difficulty + 1)) qs) /\
    (x < rnd 0.3 ->
     Forall (fun q => difficulty_level q = Z.max 1 (base_difficulty - 1)) qs) /\
    (rnd 0.3 <= x <= rnd 0.7 ->
     Forall (fun q => difficulty_level q = base_difficulty) qs).
Proof.
  intros Hnil Hbase after x.
  assert (history_of after user_id = [x]) as Hafter.
  { subst after. unfold exec. rewrite b64_calculate_next_difficulty_run. cbn [snd].
    rewrite history_of_logged. destruct (decide (user_id = user_id)); [|done].
    by rewrite Hnil. }
  split; [exact Hafter|].
  assert (B64.adjusted_level after base_difficulty user_id
          = (if Py.ltb (rnd 0.7) x then Z.min 3 (base_difficulty + 1)
             else if Py.ltb x (rnd 0.3) then Z.max 1 (base_difficulty - 1)
             else base_difficulty)) as Hlevel.
  { rewrite b64_adjusted_level_nonempty by (by rewrite Hafter).
    rewrite Hafter. change (B64.recent_trend [x]) with x.
    destruct (Py.ltb (rnd 0.7) x); [lia|]. destruct (Py.ltb x (rnd 0.3)); lia. }
  destruct (b64_batch_at_level topic user_id base_difficulty num_questions after _
              eq_refl) as (qs & Hrun & Hlen & Hall).
  { rewrite Hlevel. destruct (Py.ltb (rnd 0.7) x); [lia|].
    destruct (Py.ltb x (rnd 0.3)); lia. }
  exists qs. split; [exact Hrun|]. split; [exact Hlen|].
  rewrite Hlevel in Hall. split; [|split].
  - intros Hx. by rewrite (proj2 (PyFacts.ltb_lt _ _) Hx) in Hall.
  - intros Hx.
    assert (Py.ltb (rnd 0.7) x = false) as Hno.
    { apply PyFacts.ltb_ge. apply Qlt_le_weak, Qlt_le_trans with (rnd 0.3); [done|].
      apply rnd_monotone. lra. }
    by rewrite Hno, (proj2 (PyFacts.ltb_lt _ _) Hx) in Hall.
  - intros [Hlo Hhi].
    assert (Py.ltb (rnd 0.7) x = false) as Hno by (by apply PyFacts.ltb_ge).
    assert (Py.ltb x (rnd 0.3) = false) as Hno' by (by apply PyFacts.ltb_ge).
    by rewrite Hno, Hno' in Hall.
Qed.

Lemma first_answer_moves_next_batch_witness :
  exists qs : list Question,
    result (B64.get_adaptive_questions 4 7 2 3)
      (exec (B64.calculate_next_difficulty 7 2
               {| is_correct := Some true; time_taken := Some 30; confidence := Some 0.9 |})
            (init id (fun _ => true))) = Ok qs /\
    Forall (fun q => difficulty_level q = 3%Z) qs.
Proof.
  destruct (first_answer_moves_next_batch (init id (fun _ => true)) 7 2
              {| is_correct := Some true; time_taken := Some 30; confidence := Some 0.9 |}
              4 2 3) as (_ & qs & Hrun & _ & Hup & _); [reflexivity | lia |].
  exists qs. split; [exact Hrun|]. apply Hup. by vm_compute.
Defined.
